(** * PersistentCache: a shallow embedding of
      src/anylabeling/services/auto_labeling/persistent_cache.py

    The cache directory is modelled as a directory listing: an association
    list from file names to file records, in the order in which the
    directory is enumerated (the order [Path.glob] yields).  Pickled Python
    objects are modelled by a small universe [pyobj]; a file either holds
    the pickle of an object or bytes that do not unpickle (truncated or
    corrupt content).  I/O failures are modelled by a [locked] flag on a
    file (opening it for writing, renaming onto it and unlinking it raise
    [PermissionError]) and, for [put] and for [__init__]'s [mkdir], by an
    explicit fault argument: a full disk, a directory that cannot be
    written, a rename that [shutil.move] replaces by a copy.  In the other
    operations only locked files fail.  Unpickling raises nothing but an
    [Exception]: a crafted pickle that raises [SystemExit] is outside the
    model.  Timestamps ([time.time()], [st_mtime]) are integers in clock
    ticks. *)

From Stdlib Require Import ZArith List Bool String Ascii Lia.
From Stdlib Require Import Sorting.Permutation Sorting.Sorted.
Import ListNotations.

Open Scope Z_scope.
Set Warnings "-register-all".

Module PersistentCache.

(** ** Python values *)

(** The Python objects the cache stores and loads.  Python numbers (int and
    float) are [PNum]; dicts are keyed by strings (the index maps file
    names to timestamps) and keep insertion order. *)
Inductive pyobj : Type :=
| PNone
| PNum (z : Z)
| PStr (s : string)
| PList (xs : list pyobj)
| PDict (kvs : list (string * pyobj)).

Fixpoint dict_lookup (n : string) (kvs : list (string * pyobj)) : option pyobj :=
  match kvs with
  | [] => None
  | (k, v) :: r => if String.eqb k n then Some v else dict_lookup n r
  end.

(** [d[n] = v]: only a dict supports item assignment with a string key. *)
Definition py_setitem (o : pyobj) (n : string) (v : pyobj) : option pyobj :=
  match o with
  | PDict kvs =>
      if existsb (fun kv => String.eqb (fst kv) n) kvs
      then Some (PDict (map (fun kv => if String.eqb (fst kv) n then (n, v) else kv) kvs))
      else Some (PDict (kvs ++ [(n, v)]))
  | _ => None
  end.

(** [d.get(n, dflt)]: AttributeError on anything but a dict. *)
Definition py_get (o : pyobj) (n : string) (dflt : pyobj) : option pyobj :=
  match o with
  | PDict kvs => Some (match dict_lookup n kvs with Some v => v | None => dflt end)
  | _ => None
  end.

(** [d.pop(n, None)]: a list's [pop] takes one argument, other objects have
    no [pop]; both raise. *)
Definition py_pop (o : pyobj) (n : string) : option pyobj :=
  match o with
  | PDict kvs => Some (PDict (filter (fun kv => negb (String.eqb (fst kv) n)) kvs))
  | _ => None
  end.

(** Python's [==]: numbers by value, strings and lists item by item, dicts
    as mappings (a dict loaded from a pickle has distinct keys); objects of
    different types are unequal. *)
Fixpoint py_eq (a b : pyobj) {struct a} : bool :=
  match a, b with
  | PNone, PNone => true
  | PNum x, PNum y => Z.eqb x y
  | PStr s, PStr t => String.eqb s t
  | PList xs, PList ys =>
      (fix eq_items (xs ys : list pyobj) : bool :=
         match xs, ys with
         | [], [] => true
         | x :: xs', y :: ys' => py_eq x y && eq_items xs' ys'
         | _, _ => false
         end) xs ys
  | PDict kvs, PDict kws =>
      Nat.eqb (List.length kvs) (List.length kws) &&
      (fix eq_values (kvs : list (string * pyobj)) : bool :=
         match kvs with
         | [] => true
         | (k, v) :: r =>
             match dict_lookup k kws with Some w => py_eq v w | None => false end &&
             eq_values r
         end) kvs
  | _, _ => false
  end.

(** Python's [<]: numbers with numbers, strings with strings (by code
    point), lists lexicographically (the first items that are not [==]
    decide, else the shorter list is less).  Anything else raises
    [TypeError] ([None]): mixed types, [None < None], dict < dict. *)
Fixpoint py_lt (a b : pyobj) {struct a} : option bool :=
  match a, b with
  | PNum x, PNum y => Some (x <? y)
  | PStr s, PStr t => Some (String.ltb s t)
  | PList xs, PList ys =>
      (fix lt_items (xs ys : list pyobj) : option bool :=
         match xs, ys with
         | x :: xs', y :: ys' => if py_eq x y then lt_items xs' ys' else py_lt x y
         | [], _ :: _ => Some true
         | _, _ => Some false
         end) xs ys
  | _, _ => None
  end.

(** [a < b] where it does not raise. *)
Definition py_lt_b (a b : pyobj) : bool :=
  match py_lt a b with Some r => r | None => false end.

(** Every two objects of the list compare with [<], both ways. *)
Fixpoint all_compare (l : list pyobj) : bool :=
  match l with
  | [] => true
  | x :: r =>
      forallb (fun y => match py_lt x y, py_lt y x with
                        | Some _, Some _ => true
                        | _, _ => false
                        end) r && all_compare r
  end.

(** [o.clear()]: dicts and lists have it. *)
Definition py_clear (o : pyobj) : option pyobj :=
  match o with
  | PDict _ => Some (PDict [])
  | PList _ => Some (PList [])
  | _ => None
  end.

(** ** Files and the cache directory *)

Inductive content : Type :=
| CPickle (o : pyobj)   (* the bytes of [pickle.dump(o, f)] *)
| CJunk.                (* bytes on which [pickle.load] raises *)

Definition pickle_load (c : content) : option pyobj :=
  match c with
  | CPickle o => Some o
  | CJunk => None
  end.

Record file : Type := mkFile {
  data : content;
  st_size : Z;
  st_mtime : Z;
  locked : bool
}.

Definition dir := list (string * file).

Fixpoint fs_lookup (n : string) (d : dir) : option file :=
  match d with
  | [] => None
  | (m, f) :: r => if String.eqb m n then Some f else fs_lookup n r
  end.

Definition fs_exists (n : string) (d : dir) : bool :=
  match fs_lookup n d with Some _ => true | None => false end.

Definition fs_remove (n : string) (d : dir) : dir :=
  filter (fun mf => negb (String.eqb (fst mf) n)) d.

(** Writing a file: an existing entry is replaced where it is listed, a new
    one is listed last. *)
Definition fs_set (n : string) (f : file) (d : dir) : dir :=
  if fs_exists n d
  then map (fun mf => if String.eqb (fst mf) n then (n, f) else mf) d
  else d ++ [(n, f)].

(** [Path.unlink]: [FileNotFoundError] or [PermissionError] as [None]. *)
Definition unlink (n : string) (d : dir) : option dir :=
  match fs_lookup n d with
  | Some f => if locked f then None else Some (fs_remove n d)
  | None => None
  end.

(** ** File names *)

Definition ascii_list (s : string) : list ascii := list_ascii_of_string s.

(** [Path.name.suffix] is the part from the last dot when that dot is
    neither the first nor the last character; [with_suffix] replaces it,
    or appends when there is none. Works on the reversed name. *)
Fixpoint split_dot (r : list ascii) : option (list ascii * list ascii) :=
  match r with
  | [] => None
  | c :: r' =>
      if Ascii.eqb c "."%char then Some ([], r')
      else match split_dot r' with
           | Some (e, s) => Some (c :: e, s)
           | None => None
           end
  end.

Definition with_suffix (name suf : string) : string :=
  match split_dot (rev (ascii_list name)) with
  | Some ((_ :: _), (_ :: _) as stem) =>
      String.append (string_of_list_ascii (rev stem)) suf
  | _ => String.append name suf
  end.

(** [fnmatch(name, "embedding_*.pkl")]: the name ends in ".pkl" and what
    precedes that suffix starts with "embedding_". *)
Definition glob_entry (name : string) : bool :=
  match rev (ascii_list name) with
  | "l"%char :: "k"%char :: "p"%char :: "."%char :: stem =>
      String.prefix "embedding_" (string_of_list_ascii (rev stem))
  | _ => false
  end.

Definition metadata_file : string := "metadata.pkl".

(** ** The cache object *)

Record cache : Type := mkCache {
  files : dir;           (* the contents of [self.cache_dir] *)
  metadata : pyobj;      (* [self.metadata], the in-memory index *)
  max_size_bytes : Z
}.

Definition set_files (c : cache) (d : dir) : cache :=
  mkCache d (metadata c) (max_size_bytes c).

Definition set_metadata (c : cache) (m : pyobj) : cache :=
  mkCache (files c) m (max_size_bytes c).

(** [put] distinguishes, for the proofs, whether its [try] body ran to the
    end; the Python method returns [None] either way. *)
Inductive outcome : Type := Completed | Raised.

(** How the fallback of [shutil.move] goes once [os.rename] has raised:
    [copy2(temp_path, cache_path)] opens the entry file with mode 'wb'
    (truncating it) and copies the bytes and the modification time, then
    [os.unlink(temp_path)] runs. *)
Inductive copy_fault : Type :=
| CopyOpen            (* copy2's open of the entry file raises; it is untouched *)
| CopyWrite (sz : Z)  (* the copy raises once the entry file holds sz bytes of it *)
| SrcUnlink           (* the copy completes, os.unlink(temp_path) raises *)
| CopyDone.           (* the copy and the unlink complete: the move succeeds *)

(** The I/O error injected into one call of [put]: the first step of its
    [try] body that raises, where [again] says that the [unlink] of the
    temporary file in the [except] branch raises too (the cause, such as a
    directory that cannot be written, persists); or a [pickle.dump] of
    [_save_metadata] that raises, which is swallowed there. *)
Inductive put_fault : Type :=
| NoFault
| FailOpen (again : bool)                   (* open(temp_path, 'wb') *)
| FailDump (sz : Z) (again : bool)          (* pickle.dump(value, f), after sz bytes *)
| FailMove (cf : copy_fault) (again : bool) (* os.rename in shutil.move *)
| FailIndexDump (sz : Z).                   (* pickle.dump of the index, after sz bytes *)

Definition recover_fails (flt : put_fault) : bool :=
  match flt with
  | FailOpen a | FailDump _ a | FailMove _ a => a
  | _ => false
  end.

Definition index_fault (flt : put_fault) : option Z :=
  match flt with FailIndexDump sz => Some sz | _ => None end.

Section Model.

(** [hashlib.md5(str(key).encode()).hexdigest()] for a string key. *)
Variable md5hex : string -> string.
(** [len(pickle.dumps(o))]. *)
Variable pickle_size : pyobj -> Z.

(** [_load_metadata] *)
Definition load_metadata (d : dir) : pyobj :=
  match fs_lookup metadata_file d with
  | Some f =>
      match pickle_load (data f) with
      | Some o => o
      | None => PDict []
      end
  | None => PDict []
  end.

(** [__init__] with [max_size_bytes] already converted to bytes.
    [self.cache_dir.mkdir(parents=True, exist_ok=True)] comes first and its
    error is not caught: when it raises ([mkdir_raises]: the path is a
    file, or a parent cannot be written) so does the constructor, [None]. *)
Definition init (mkdir_raises : bool) (d : dir) (max_bytes : Z) : option cache :=
  if mkdir_raises then None else Some (mkCache d (load_metadata d) max_bytes).

(** [_save_metadata].  [open(self.metadata_file, 'wb')] raises on a locked
    index file, before anything is written.  Otherwise it truncates the
    file, and [pickle.dump] writes the pickle of the index or, with
    [dump_fault = Some sz] (a full disk), raises once [sz] bytes are
    written, leaving a file that does not unpickle.  Errors are swallowed. *)
Definition save_metadata_at (dump_fault : option Z) (now : Z) (c : cache) : cache :=
  let written :=
    match dump_fault with
    | None => mkFile (CPickle (metadata c)) (pickle_size (metadata c)) now false
    | Some sz => mkFile CJunk sz now false
    end in
  let write := set_files c (fs_set metadata_file written (files c)) in
  match fs_lookup metadata_file (files c) with
  | Some f => if locked f then c else write
  | None => write
  end.

(** [_save_metadata] as [get], [clear] and [_cleanup_old_files] run it:
    only [put] injects a failing [pickle.dump]. *)
Definition save_metadata (now : Z) (c : cache) : cache := save_metadata_at None now c.

(** [_get_cache_key] *)
Definition get_cache_key (key : string) : string :=
  String.append "embedding_" (String.append (md5hex key) ".pkl").

Definition temp_key (key : string) : string :=
  with_suffix (get_cache_key key) ".tmp".


(** ** [_cleanup_old_files] *)

(** The scan: [(file_path, size, access_time)] for every file matching the
    glob, in enumeration order; [None] when [self.metadata.get] raises. *)
Fixpoint scan (md : pyobj) (d : dir) : option (list (string * Z * pyobj)) :=
  match d with
  | [] => Some []
  | (n, f) :: r =>
      if glob_entry n then
        match py_get md n (PNum (st_mtime f)), scan md r with
        | Some t, Some l => Some ((n, st_size f, t) :: l)
        | _, _ => None
        end
      else scan md r
  end.

Definition entry_size (e : string * Z * pyobj) : Z := let '(_, s, _) := e in s.
Definition entry_name (e : string * Z * pyobj) : string := let '(n, _, _) := e in n.
Definition entry_time (e : string * Z * pyobj) : pyobj := let '(_, _, t) := e in t.

Definition total_of (l : list (string * Z * pyobj)) : Z :=
  fold_right (fun e acc => entry_size e + acc) 0 l.

Definition num_of (o : pyobj) : Z := match o with PNum z => z | _ => 0 end.
Definition is_num (o : pyobj) : bool := match o with PNum _ => true | _ => false end.

(** One step of a stable insertion sort on the timestamp: the element goes
    after every element whose key is not greater. *)
Fixpoint insert_by_time (e : string * Z * pyobj) (l : list (string * Z * pyobj))
  : list (string * Z * pyobj) :=
  match l with
  | [] => [e]
  | e' :: l' =>
      if py_lt_b (entry_time e) (entry_time e')
      then e :: l
      else e' :: insert_by_time e l'
  end.

(** [cache_files.sort(key=lambda x: x[2])]: Python's sort is stable and
    compares keys with [<] only.  When every two keys compare, the result is
    the stable sort by key.  When two keys do not, the sort raises
    [TypeError]: a sort that ends has compared every two keys adjacent in
    its result, and no key of this universe compares with two keys that do
    not compare with each other and lies between them.  A list of fewer
    than two elements is sorted without any comparison. *)
Definition py_sort (l : list (string * Z * pyobj)) : option (list (string * Z * pyobj)) :=
  match l with
  | [] | [_] => Some l
  | _ =>
      if all_compare (map entry_time l)
      then Some (fold_left (fun acc e => insert_by_time e acc) l [])
      else None
  end.

(** The deletion loop.  [target_size = max_size_bytes * 0.8] is compared
    exactly: [x <= 0.8 * m] iff [5 * x <= 4 * m]. *)
Fixpoint evict (maxb total removed : Z) (l : list (string * Z * pyobj))
    (d : dir) (md : pyobj) : dir * pyobj :=
  match l with
  | [] => (d, md)
  | (n, sz, _) :: l' =>
      if 5 * (total - removed) <=? 4 * maxb then (d, md)
      else
        match unlink n d with
        | Some d' =>
            evict maxb total (removed + sz) l' d'
              (match py_pop md n with Some m => m | None => md end)
        | None => evict maxb total removed l' d md
        end
  end.

Definition cleanup_old_files (now : Z) (c : cache) : cache :=
  match scan (metadata c) (files c) with
  | None => c
  | Some l =>
      let total := total_of l in
      if max_size_bytes c <? total then
        match py_sort l with
        | None => c
        | Some s =>
            let '(d', md') := evict (max_size_bytes c) total 0 s (files c) (metadata c) in
            save_metadata now (mkCache d' md' (max_size_bytes c))
        end
      else c
  end.

(** ** Public operations *)

(** [get]: the value (or [None]) and the new state. *)
Definition get (now : Z) (key : string) (c : cache) : option pyobj * cache :=
  let n := get_cache_key key in
  let corrupted :=
    match unlink n (files c) with
    | Some d' =>
        (None, mkCache d' (match py_pop (metadata c) n with Some m => m | None => metadata c end)
                 (max_size_bytes c))
    | None => (None, c)
    end in
  match fs_lookup n (files c) with
  | None => (None, c)
  | Some f =>
      match pickle_load (data f) with
      | Some v =>
          match py_setitem (metadata c) n (PNum now) with
          | Some md' => (Some v, save_metadata now (set_metadata c md'))
          | None => corrupted
          end
      | None => corrupted
      end
  end.

(** The [except] branch of [put]: [temp_path.unlink()] if the temporary
    file exists.  It raises, and the error is swallowed, on a locked file or
    when [again]. *)
Definition put_recover (again : bool) (tmp : string) (c : cache) : outcome * cache :=
  if fs_exists tmp (files c)
  then (Raised, if again then c
                else match unlink tmp (files c) with
                     | Some d' => set_files c d'
                     | None => c
                     end)
  else (Raised, c).

Definition is_locked (n : string) (d : dir) : bool :=
  match fs_lookup n d with Some f => locked f | None => false end.

Definition put (now : Z) (key : string) (value : pyobj) (flt : put_fault) (c : cache)
  : outcome * cache :=
  let n := get_cache_key key in
  let tmp := with_suffix n ".tmp" in
  let recover d := put_recover (recover_fails flt) tmp (set_files c d) in
  let tf := mkFile (CPickle value) (pickle_size value) now false in
  (* the try body once the entry file holds the new value *)
  let finish d :=
    match py_setitem (metadata c) n (PNum now) with
    | None => recover d
    | Some md' =>
        (Completed,
         cleanup_old_files now
           (save_metadata_at (index_fault flt) now (mkCache d md' (max_size_bytes c))))
    end in
  (* open(temp_path, 'wb') *)
  if (match flt with FailOpen _ => true | _ => false end) || is_locked tmp (files c)
  then recover (files c)
  else
    match flt with
    | FailDump sz _ =>
        (* pickle.dump(value, f) raises *)
        recover (fs_set tmp (mkFile CJunk sz now false) (files c))
    | _ =>
        let written := fs_set tmp tf (files c) in
        (* shutil.move(str(temp_path), str(cache_path)) *)
        match flt with
        | FailMove cf _ =>
            (* os.rename raised: copy2(temp_path, cache_path), os.unlink(temp_path) *)
            if is_locked n written then recover written
            else
              match cf with
              | CopyOpen => recover written
              | CopyWrite sz => recover (fs_set n (mkFile CJunk sz now false) written)
              | SrcUnlink => recover (fs_set n tf written)
              | CopyDone => finish (fs_remove tmp (fs_set n tf written))
              end
        | _ =>
            (* os.rename onto a locked entry file raises, and so does the
               fallback's open of it *)
            if is_locked n written then recover written
            else finish (fs_set n tf (fs_remove tmp written))
        end
    end.

(** [find] *)
Definition find (key : string) (c : cache) : bool * cache :=
  (fs_exists (get_cache_key key) (files c), c).

(** The loop of [clear]: the first failing [unlink] leaves the loop (and the
    [try]); [false] reports that. *)
Fixpoint unlink_all (ns : list string) (d : dir) : bool * dir :=
  match ns with
  | [] => (true, d)
  | n :: ns' =>
      match unlink n d with
      | Some d' => unlink_all ns' d'
      | None => (false, d)
      end
  end.

Definition glob_names (d : dir) : list string :=
  map fst (filter (fun mf => glob_entry (fst mf)) d).

Definition clear (now : Z) (c : cache) : cache :=
  let '(ok, d') := unlink_all (glob_names (files c)) (files c) in
  if ok then
    match py_clear (metadata c) with
    | Some md' => save_metadata now (mkCache d' md' (max_size_bytes c))
    | None => set_files c d'
    end
  else set_files c d'.

(** [get_cache_info]: the number of files and their total size in bytes. *)
Definition get_cache_info (c : cache) : nat * Z :=
  let es := filter (fun mf => glob_entry (fst mf)) (files c) in
  (List.length es, fold_right (fun mf acc => st_size (snd mf) + acc) 0 es).

(** ** Reading the index and running operations *)

(** The record the index holds for an entry name ([None] when the index is
    not a dict, as nothing can be looked up in it). *)
Definition rec_of (o : pyobj) (n : string) : option pyobj :=
  match o with
  | PDict kvs => dict_lookup n kvs
  | _ => None
  end.

Definition record (c : cache) (n : string) : option pyobj := rec_of (metadata c) n.

(** A call of one public method. *)
Inductive op : Type :=
| OGet (k : string)
| OPut (k : string) (v : pyobj) (flt : put_fault)
| OFind (k : string)
| OClear
| OInfo.

Definition exec (now : Z) (o : op) (c : cache) : cache :=
  match o with
  | OGet k => snd (get now k c)
  | OPut k v flt => snd (put now k v flt c)
  | OFind k => snd (find k c)
  | OClear => clear now c
  | OInfo => c
  end.

(** Every record of the index is a timestamp no later than [t]. *)
Definition stamps_le (c : cache) (t : Z) : Prop :=
  forall n v, record c n = Some v -> exists z, v = PNum z /\ z <= t.

(** ** The eviction pass as the spec describes it *)

(** The entry files of a listing, in enumeration order. *)
Definition entry_files (d : dir) : dir := filter (fun mf => glob_entry (fst mf)) d.

Definition summed_size (d : dir) : Z := fold_right (fun mf acc => st_size (snd mf) + acc) 0 d.

(** Recency: the index's timestamp, or the modification time when the index
    has no record for the file. *)
Definition recency (kvs : list (string * pyobj)) (mf : string * file) : Z :=
  match dict_lookup (fst mf) kvs with
  | Some (PNum z) => z
  | _ => st_mtime (snd mf)
  end.

(** The files of a prefix of the deletion order that are actually deleted
    (a deletion that fails is skipped). *)
Definition deleted (s : dir) : dir := filter (fun mf => negb (locked (snd mf))) s.

Definition drop_names {A : Type} (ns : list string) (l : list (string * A)) : list (string * A) :=
  filter (fun x => negb (existsb (String.eqb (fst x)) ns)) l.

(** The scan's triple for a listed file when the index is the dict [kvs]. *)
Definition scan_entry (kvs : list (string * pyobj)) (mf : string * file) : string * Z * pyobj :=
  (fst mf, st_size (snd mf),
   match dict_lookup (fst mf) kvs with Some v => v | None => PNum (st_mtime (snd mf)) end).

(** Insertion into a list sorted by [key], after the elements with an equal
    key. *)
Fixpoint insert_key {A : Type} (key : A -> Z) (x : A) (l : list A) : list A :=
  match l with
  | [] => [x]
  | y :: l' => if key x <? key y then x :: l else y :: insert_key key x l'
  end.

End Model.

(** * Sample caches

    Concrete directories and indexes on which the properties below are
    exercised.  The key is used as its own digest, and every pickle is taken
    to be 300 bytes long. *)

Section Samples.
Local Open Scope string_scope.

Definition sample_hash (k : string) : string := k.
Definition sample_size (o : pyobj) : Z := 300.
Definition entry_file (o : pyobj) (t : Z) : file := mkFile (CPickle o) 300 t false.
Definition junk_file (lk : bool) : file := mkFile CJunk 50 0 lk.
Definition index_file (o : pyobj) : file := mkFile (CPickle o) 40 0 false.

Definition full_index : pyobj :=
  PDict [("embedding_a.pkl", PNum 1); ("embedding_b.pkl", PNum 2);
         ("embedding_c.pkl", PNum 3); ("embedding_d.pkl", PNum 4)].
Definition full_cache : cache :=
  mkCache [("embedding_c.pkl", entry_file (PNum 30) 3); ("embedding_a.pkl", entry_file (PNum 10) 1);
           ("metadata.pkl", index_file full_index);
           ("embedding_d.pkl", entry_file (PNum 40) 4); ("embedding_b.pkl", entry_file (PNum 20) 2)]
          full_index 1000.

Definition corrupt_index : pyobj := PDict [("embedding_a.pkl", PNum 1)].
Definition corrupt_cache (lk : bool) : cache :=
  mkCache [("embedding_a.pkl", junk_file lk); ("metadata.pkl", index_file corrupt_index)]
          corrupt_index 1000.

Definition clear_index : pyobj := PDict [("embedding_a.pkl", PNum 1); ("embedding_b.pkl", PNum 2)].
Definition clear_cache (lk : bool) : cache :=
  mkCache [("embedding_a.pkl", mkFile (CPickle (PNum 10)) 300 1 lk);
           ("embedding_b.pkl", entry_file (PNum 20) 2);
           ("embedding_b.tmp", junk_file false);
           ("metadata.pkl", index_file clear_index)]
          clear_index 1000.

(** An index loaded from a file that unpickles to a list. *)
Definition foreign_cache : cache :=
  mkCache [("embedding_a.pkl", entry_file (PNum 10) 1); ("metadata.pkl", index_file (PList [PNum 1]))]
          (PList [PNum 1]) 1000.

(** Five entry files over a limit of 1000 bytes, with a temporary file. *)
Definition over_index : pyobj :=
  PDict [("embedding_a.pkl", PNum 1); ("embedding_b.pkl", PNum 2); ("embedding_c.pkl", PNum 3)].
Definition over_cache : cache :=
  mkCache [("embedding_c.pkl", entry_file (PNum 30) 3); ("embedding_e.tmp", junk_file false);
           ("embedding_a.pkl", entry_file (PNum 10) 1); ("metadata.pkl", index_file over_index);
           ("embedding_d.pkl", entry_file (PNum 40) 7); ("embedding_b.pkl", entry_file (PNum 20) 2);
           ("embedding_f.pkl", entry_file (PNum 50) 5)]
          over_index 1000.

End Samples.

(** Case analysis on a lookup in a concrete dict. *)
Ltac concrete_record :=
  intros ? ? Hr; cbn [dict_lookup record rec_of metadata] in Hr;
  repeat match type of Hr with
         | context [String.eqb ?a ?b] => destruct (String.eqb a b); cbn iota in Hr
         end;
  try discriminate Hr; injection Hr as <-.

(** Every entry file of a concrete listing can be deleted. *)
Ltac entries_unlocked :=
  lazymatch goal with
  | |- forall n f, In (n, f) ?l -> locked f = false =>
      let Hb := fresh in
      assert (Hb : forallb (fun x => negb (locked (snd x))) l = true) by (vm_compute; reflexivity);
      rewrite forallb_forall in Hb;
      let n := fresh in let f := fresh in let Hi := fresh in
      intros n f Hi; specialize (Hb _ Hi); apply negb_true_iff in Hb; exact Hb
  end.

(** The names of a concrete listing are distinct. *)
Ltac names_distinct := vm_compute; repeat constructor; simpl; intuition discriminate.


(** * Proofs *)

Section Proofs.

Variable md5hex : string -> string.
Variable pickle_size : pyobj -> Z.

Local Abbreviation key_of := (get_cache_key md5hex).
Local Abbreviation tmp_of := (temp_key md5hex).
Local Abbreviation save := (save_metadata pickle_size).
Local Abbreviation save_at := (save_metadata_at pickle_size).
Local Abbreviation cleanup := (cleanup_old_files pickle_size).

(** ** The directory listing *)

(** Case analysis on every string comparison in the goal. *)
Ltac str_cases :=
  repeat match goal with
         | |- context [String.eqb ?a ?b] =>
             destruct (String.eqb_spec a b); subst
         | H : context [String.eqb ?a ?b] |- _ =>
             destruct (String.eqb_spec a b); subst
         end; try congruence.

Lemma fs_lookup_remove (m n : string) (d : dir) :
  fs_lookup m (fs_remove n d) = if String.eqb m n then None else fs_lookup m d.
Proof.
  unfold fs_remove.
  induction d as [|[k f] d IH]; simpl; [str_cases|].
  destruct (String.eqb_spec k n); simpl; rewrite ?IH; str_cases.
Qed.

Lemma fs_lookup_map_set (m n : string) (f : file) (d : dir) :
  fs_lookup m (map (fun mf => if String.eqb (fst mf) n then (n, f) else mf) d)
  = if String.eqb m n then (if fs_exists n d then Some f else None) else fs_lookup m d.
Proof.
  unfold fs_exists.
  induction d as [|[k g] d IH]; simpl; [str_cases|].
  destruct (String.eqb_spec k n); simpl; rewrite ?IH; str_cases.
Qed.

Lemma fs_lookup_app (m : string) (d e : dir) :
  fs_lookup m (d ++ e) = match fs_lookup m d with Some f => Some f | None => fs_lookup m e end.
Proof.
  induction d as [|[k g] d IH]; simpl; [reflexivity|].
  destruct (String.eqb k m); [reflexivity|exact IH].
Qed.

Lemma fs_lookup_set (m n : string) (f : file) (d : dir) :
  fs_lookup m (fs_set n f d) = if String.eqb m n then Some f else fs_lookup m d.
Proof.
  unfold fs_set. destruct (fs_exists n d) eqn:E.
  - rewrite fs_lookup_map_set, E. reflexivity.
  - rewrite fs_lookup_app. unfold fs_exists in E.
    destruct (String.eqb_spec m n) as [->|Hmn].
    + destruct (fs_lookup n d); [discriminate|]. simpl. rewrite String.eqb_refl. reflexivity.
    + destruct (fs_lookup m d); [reflexivity|]. simpl.
      destruct (String.eqb_spec n m); [congruence|reflexivity].
Qed.

Lemma unlink_lookup (m n : string) (d d' : dir) :
  unlink n d = Some d' ->
  fs_lookup m d' = if String.eqb m n then None else fs_lookup m d.
Proof.
  unfold unlink. destruct (fs_lookup n d) as [f|]; [|discriminate].
  destruct (locked f); [discriminate|]. intros [= <-]. apply fs_lookup_remove.
Qed.

Lemma unlink_some (n : string) (d : dir) (f : file) :
  fs_lookup n d = Some f -> locked f = false -> unlink n d = Some (fs_remove n d).
Proof. unfold unlink. intros -> ->. reflexivity. Qed.

Lemma unlink_locked (n : string) (d : dir) (f : file) :
  fs_lookup n d = Some f -> locked f = true -> unlink n d = None.
Proof. unfold unlink. intros -> ->. reflexivity. Qed.

(** ** File names *)

Lemma ascii_list_append (s t : string) :
  ascii_list (String.append s t) = ascii_list s ++ ascii_list t.
Proof.
  unfold ascii_list. induction s as [|a s IH]; simpl; [reflexivity|]. now rewrite IH.
Qed.

Lemma with_suffix_ends (name suf : string) :
  exists x, with_suffix name suf = String.append x suf.
Proof.
  unfold with_suffix.
  destruct (split_dot (rev (ascii_list name))) as [[[|a e] [|b s]]|];
    eexists; reflexivity.
Qed.

Lemma rev_ascii_tmp (x : string) :
  rev (ascii_list (String.append x ".tmp")) =
  "p"%char :: "m"%char :: "t"%char :: "."%char :: rev (ascii_list x).
Proof. rewrite ascii_list_append, rev_app_distr. reflexivity. Qed.

Lemma rev_ascii_key (k : string) :
  rev (ascii_list (key_of k)) =
  "l"%char :: "k"%char :: "p"%char :: "."%char ::
    rev (ascii_list (md5hex k)) ++ rev (ascii_list "embedding_").
Proof.
  unfold get_cache_key. rewrite !ascii_list_append, !rev_app_distr.
  rewrite <- app_assoc. reflexivity.
Qed.

Lemma key_not_metadata (k : string) : key_of k <> metadata_file.
Proof.
  unfold get_cache_key, metadata_file. simpl. discriminate.
Qed.

Lemma tmp_not_key (k k' : string) : tmp_of k <> key_of k'.
Proof.
  unfold temp_key. destruct (with_suffix_ends (key_of k) ".tmp") as [x ->].
  intros E. apply (f_equal (fun s => rev (ascii_list s))) in E.
  rewrite rev_ascii_tmp, rev_ascii_key in E. discriminate.
Qed.

Lemma tmp_not_metadata (k : string) : tmp_of k <> metadata_file.
Proof.
  unfold temp_key. destruct (with_suffix_ends (key_of k) ".tmp") as [x ->].
  intros E. apply (f_equal (fun s => rev (ascii_list s))) in E.
  rewrite rev_ascii_tmp in E. discriminate.
Qed.

Lemma glob_tmp (k : string) : glob_entry (tmp_of k) = false.
Proof.
  unfold temp_key, glob_entry. destruct (with_suffix_ends (key_of k) ".tmp") as [x ->].
  rewrite rev_ascii_tmp. reflexivity.
Qed.

Lemma glob_metadata : glob_entry metadata_file = false.
Proof. reflexivity. Qed.

(** ** Frame lemmas for the internal helpers *)

Lemma save_at_lookup_other (df : option Z) (now : Z) (c : cache) (m : string) :
  m <> metadata_file ->
  fs_lookup m (files (save_at df now c)) = fs_lookup m (files c).
Proof.
  intros Hm. unfold save_metadata_at.
  destruct (fs_lookup metadata_file (files c)) as [f|]; [destruct (locked f)|];
    simpl; rewrite ?fs_lookup_set; str_cases.
Qed.

Lemma save_lookup_other (now : Z) (c : cache) (m : string) :
  m <> metadata_file ->
  fs_lookup m (files (save now c)) = fs_lookup m (files c).
Proof. exact (save_at_lookup_other None now c m). Qed.

Lemma save_at_same (df : option Z) (now : Z) (c : cache) :
  metadata (save_at df now c) = metadata c /\ max_size_bytes (save_at df now c) = max_size_bytes c.
Proof.
  unfold save_metadata_at.
  destruct (fs_lookup metadata_file (files c)) as [f|]; [destruct (locked f)|];
    simpl; auto.
Qed.

Lemma save_metadata_same (now : Z) (c : cache) :
  metadata (save now c) = metadata c /\ max_size_bytes (save now c) = max_size_bytes c.
Proof. exact (save_at_same None now c). Qed.

Lemma evict_lookup (maxb total : Z) (l : list (string * Z * pyobj)) :
  forall removed d md m,
  fs_lookup m (fst (evict maxb total removed l d md)) = fs_lookup m d \/
  fs_lookup m (fst (evict maxb total removed l d md)) = None.
Proof.
  induction l as [|[[n sz] t] l IH]; intros removed d md m; cbn [evict]; [auto|].
  destruct (5 * (total - removed) <=? 4 * maxb); [cbn [fst]; auto|].
  destruct (unlink n d) as [d'|] eqn:U; [|apply IH].
  destruct (IH (removed + sz) d' (match py_pop md n with Some m0 => m0 | None => md end) m)
    as [-> | ->]; [|auto].
  rewrite (unlink_lookup m n d d' U). destruct (String.eqb m n); auto.
Qed.

Lemma evict_dict (maxb total : Z) (l : list (string * Z * pyobj)) :
  forall removed d kvs, exists kvs',
  snd (evict maxb total removed l d (PDict kvs)) = PDict kvs'.
Proof.
  induction l as [|[[n sz] t] l IH]; intros removed d kvs; cbn [evict snd]; [eauto|].
  destruct (5 * (total - removed) <=? 4 * maxb); [cbn [snd]; eauto|].
  destruct (unlink n d); cbn [py_pop]; apply IH.
Qed.

Lemma cleanup_lookup_other (now : Z) (c : cache) (m : string) :
  m <> metadata_file ->
  fs_lookup m (files (cleanup now c)) = fs_lookup m (files c) \/
  fs_lookup m (files (cleanup now c)) = None.
Proof.
  intros Hm. unfold cleanup_old_files.
  destruct (scan (metadata c) (files c)) as [l|]; [|auto].
  destruct (max_size_bytes c <? total_of l); [|auto].
  destruct (py_sort l) as [srt|]; [|auto].
  pose proof (evict_lookup (max_size_bytes c) (total_of l) srt 0 (files c) (metadata c) m) as H.
  destruct (evict (max_size_bytes c) (total_of l) 0 srt (files c) (metadata c)) as [d' md'].
  rewrite save_lookup_other by exact Hm. exact H.
Qed.

Lemma cleanup_dict (now : Z) (c : cache) (kvs : list (string * pyobj)) :
  metadata c = PDict kvs ->
  exists kvs', metadata (cleanup now c) = PDict kvs'.
Proof.
  intros Hmd. unfold cleanup_old_files.
  destruct (scan (metadata c) (files c)) as [l|]; [|eauto].
  destruct (max_size_bytes c <? total_of l); [|eauto].
  destruct (py_sort l) as [srt|]; [|eauto].
  rewrite Hmd.
  destruct (evict_dict (max_size_bytes c) (total_of l) srt 0 (files c) kvs) as [kvs' Hk].
  destruct (evict (max_size_bytes c) (total_of l) 0 srt (files c) (PDict kvs)) as [d' md'].
  simpl in Hk. subst md'. exists kvs'. apply (save_metadata_same now (mkCache d' (PDict kvs') _)).
Qed.

Lemma setitem_dict (o : pyobj) (n : string) (v o' : pyobj) :
  py_setitem o n v = Some o' -> exists kvs, o' = PDict kvs.
Proof.
  destruct o; simpl; try discriminate.
  destruct (existsb _ _); intros [= <-]; eauto.
Qed.

(** ** The shape of [put] *)

Lemma put_recover_spec (again : bool) (tmp : string) (c : cache) :
  fst (put_recover again tmp c) = Raised /\
  metadata (snd (put_recover again tmp c)) = metadata c /\
  max_size_bytes (snd (put_recover again tmp c)) = max_size_bytes c /\
  (forall m, m <> tmp ->
     fs_lookup m (files (snd (put_recover again tmp c))) = fs_lookup m (files c)) /\
  (fs_lookup tmp (files (snd (put_recover again tmp c))) = None \/
   ((again = true \/ is_locked tmp (files c) = true) /\
    fs_lookup tmp (files (snd (put_recover again tmp c))) = fs_lookup tmp (files c))).
Proof.
  unfold put_recover, fs_exists, is_locked.
  destruct (fs_lookup tmp (files c)) as [f|] eqn:Hf.
  - destruct again.
    + cbn [fst snd]. repeat split. right. split; [left; reflexivity|rewrite ?Hf; reflexivity].
    + destruct (unlink tmp (files c)) as [d'|] eqn:U.
      * cbn [fst snd files set_files metadata max_size_bytes]. repeat split.
        -- intros m Hm. rewrite (unlink_lookup m tmp _ _ U). str_cases.
        -- left. rewrite (unlink_lookup tmp tmp _ _ U), String.eqb_refl. reflexivity.
      * cbn [fst snd]. repeat split. right. split; [right|rewrite ?Hf; reflexivity].
        rewrite ?Hf. unfold unlink in U. rewrite Hf in U.
        destruct (locked f); [reflexivity|discriminate].
  - cbn [fst snd]. repeat split. left. exact Hf.
Qed.

Lemma is_locked_set_other (m n : string) (f : file) (d : dir) :
  m <> n -> is_locked m (fs_set n f d) = is_locked m d.
Proof.
  intros H. unfold is_locked. rewrite fs_lookup_set. str_cases.
Qed.

(** Removing one name and writing another commute. *)
Lemma fs_remove_set (t n : string) (f : file) (d : dir) :
  n <> t -> fs_remove t (fs_set n f d) = fs_set n f (fs_remove t d).
Proof.
  intros Hnt. unfold fs_set.
  assert (E : fs_exists n (fs_remove t d) = fs_exists n d).
  { unfold fs_exists. rewrite fs_lookup_remove.
    destruct (String.eqb_spec n t); [congruence|reflexivity]. }
  rewrite E. destruct (fs_exists n d).
  - unfold fs_remove. clear E. induction d as [|[m g] d IH]; [reflexivity|].
    simpl. destruct (String.eqb_spec m n) as [->|Hmn]; simpl.
    + destruct (String.eqb_spec n t); [congruence|]. simpl.
      rewrite String.eqb_refl, IH. reflexivity.
    + destruct (String.eqb_spec m t); simpl; [exact IH|].
      destruct (String.eqb_spec m n); [congruence|]. rewrite IH. reflexivity.
  - unfold fs_remove. rewrite filter_app. cbn [filter fst].
    destruct (String.eqb_spec n t); [congruence|]. reflexivity.
Qed.

Ltac shape_recover :=
  left; eexists; split; [|reflexivity];
  let m := fresh in let H1 := fresh in let H2 := fresh in
  intros m H1 H2; rewrite ?fs_lookup_set, ?fs_lookup_remove, ?fs_lookup_set; str_cases.

Ltac shape_finish :=
  lazymatch goal with |- context [py_setitem ?o ?n ?t] =>
    let md' := fresh "md'" in
    destruct (py_setitem o n t) as [md'|];
    [right; exists md'; split; [reflexivity|try reflexivity]|shape_recover]
  end.

(** Every run of [put] either ends in its [except] branch, on a listing that
    differs from the original one at most at the temporary file and the
    entry file, with the in-memory index unchanged, or runs its [try] body
    to the end with the new value moved to the entry file. *)
Lemma put_shape (now : Z) (k : string) (v : pyobj) (flt : put_fault) (c : cache) :
  (exists d', (forall m, m <> tmp_of k -> m <> key_of k -> fs_lookup m d' = fs_lookup m (files c)) /\
     put md5hex pickle_size now k v flt c =
       put_recover (recover_fails flt) (tmp_of k) (set_files c d')) \/
  (exists md', py_setitem (metadata c) (key_of k) (PNum now) = Some md' /\
     put md5hex pickle_size now k v flt c =
       (Completed, cleanup now (save_at (index_fault flt) now (mkCache
          (fs_set (key_of k) (mkFile (CPickle v) (pickle_size v) now false)
             (fs_remove (tmp_of k)
                (fs_set (tmp_of k) (mkFile (CPickle v) (pickle_size v) now false) (files c))))
          md' (max_size_bytes c))))).
Proof.
  assert (Hkt : key_of k <> tmp_of k) by (intros E; exact (tmp_not_key k k (eq_sym E))).
  unfold put. fold (key_of k). change (with_suffix (key_of k) ".tmp") with (tmp_of k).
  cbv zeta.
  destruct flt as [|a|sz a|cf a|sz]; cbn [orb].
  - destruct (is_locked (tmp_of k) (files c)); [shape_recover|].
    destruct (is_locked (key_of k) _); [shape_recover|]. shape_finish.
  - shape_recover.
  - destruct (is_locked (tmp_of k) (files c)); shape_recover.
  - destruct (is_locked (tmp_of k) (files c)); [shape_recover|].
    destruct (is_locked (key_of k) _); [shape_recover|].
    destruct cf; try shape_recover. shape_finish.
    rewrite fs_remove_set by exact Hkt. reflexivity.
  - destruct (is_locked (tmp_of k) (files c)); [shape_recover|].
    destruct (is_locked (key_of k) _); [shape_recover|]. shape_finish.
Qed.

Lemma put_raised (now : Z) (k : string) (v : pyobj) (flt : put_fault) (c : cache) (d' : dir) :
  put md5hex pickle_size now k v flt c = put_recover (recover_fails flt) (tmp_of k) (set_files c d') ->
  fst (put md5hex pickle_size now k v flt c) = Raised.
Proof. intros ->. exact (proj1 (put_recover_spec _ _ _)). Qed.

(** ** C1: round trip *)

(** C1. A [put k v] whose [try] body completes, followed by [get k] while
    the entry file is still there (the eviction pass of that [put] did not
    remove it), returns [v]: the file holds the pickle of [v], and loading
    it gives [v] back. *)
Theorem put_get_roundtrip (now now' : Z) (k : string) (v : pyobj) (c c' : cache) :
  put md5hex pickle_size now k v NoFault c = (Completed, c') ->
  fs_exists (key_of k) (files c') = true ->
  fst (get md5hex pickle_size now' k c') = Some v.
Proof.
  intros Hput Hex.
  destruct (put_shape now k v NoFault c) as [(d' & _ & E)|(md' & Hset & E)].
  { pose proof (put_raised now k v NoFault c d' E) as R. rewrite Hput in R. discriminate R. }
  rewrite Hput in E. injection E as ->. cbn [index_fault] in Hex |- *.
  set (tf := mkFile (CPickle v) (pickle_size v) now false) in *.
  set (moved := fs_set (key_of k) tf (fs_remove (tmp_of k) (fs_set (tmp_of k) tf (files c)))) in *.
  set (c1 := save_at None now (mkCache moved md' (max_size_bytes c))) in *.
  assert (Hn : fs_lookup (key_of k) (files c1) = Some tf).
  { unfold c1. rewrite save_at_lookup_other by apply key_not_metadata.
    cbn [files]. unfold moved. rewrite fs_lookup_set, String.eqb_refl. reflexivity. }
  assert (Hd : exists kvs, metadata c1 = PDict kvs).
  { unfold c1. rewrite (proj1 (save_at_same _ _ _)). cbn [metadata].
    exact (setitem_dict _ _ _ _ Hset). }
  destruct Hd as [kvs Hd].
  destruct (cleanup_dict now c1 kvs Hd) as [kvs' Hd'].
  unfold fs_exists in Hex.
  destruct (cleanup_lookup_other now c1 (key_of k) (key_not_metadata k)) as [Hl|Hl];
    rewrite Hl in Hex; [|discriminate].
  unfold get. fold (key_of k). rewrite Hl, Hn. cbn [pickle_load data]. rewrite Hd'.
  unfold py_setitem. destruct (existsb _ _); reflexivity.
Qed.

(** ** C8: [find] is a pure probe *)

(** C8. [find k] answers whether a file is listed under the derived entry
    name and returns the cache unchanged: no file, no index record, no
    timestamp and no index file is touched. *)
Theorem find_pure (k : string) (c : cache) :
  (fst (find md5hex k c) = true <-> exists f, fs_lookup (key_of k) (files c) = Some f) /\
  snd (find md5hex k c) = c.
Proof.
  unfold find, fs_exists. simpl. split; [|reflexivity].
  destruct (fs_lookup (key_of k) (files c)) as [f|]; split; intros H.
  - eauto.
  - reflexivity.
  - discriminate.
  - destruct H as [f Hf]; discriminate.
Qed.

(** ** [clear] *)

Lemma unlink_all_other (ns : list string) :
  forall d m, ~ In m ns -> fs_lookup m (snd (unlink_all ns d)) = fs_lookup m d.
Proof.
  induction ns as [|n ns IH]; intros d m Hm; simpl; [reflexivity|].
  destruct (unlink n d) as [d'|] eqn:U; [|reflexivity].
  rewrite IH by (intros H; apply Hm; right; exact H).
  rewrite (unlink_lookup m n d d' U).
  destruct (String.eqb_spec m n); [subst; exfalso; apply Hm; left; reflexivity|reflexivity].
Qed.

Lemma glob_names_in (m : string) (d : dir) :
  In m (glob_names d) -> glob_entry m = true.
Proof.
  unfold glob_names. rewrite in_map_iff.
  intros [[n f] [Hn Hin]]. simpl in Hn. subst n.
  apply filter_In in Hin. exact (proj2 Hin).
Qed.

(** C10. [clear] removes only names matching "embedding_*.pkl": every other
    file is left as it was, except the index file, which is either left as
    it was or rewritten with the pickle of the cleared (empty) index; it is
    never removed. *)
Theorem clear_only_entries (now : Z) (c : cache) (m : string) :
  glob_entry m = false ->
  (m <> metadata_file -> fs_lookup m (files (clear pickle_size now c)) = fs_lookup m (files c)) /\
  (m = metadata_file ->
     fs_lookup m (files (clear pickle_size now c)) = fs_lookup m (files c) \/
     exists f md', fs_lookup m (files (clear pickle_size now c)) = Some f /\
                   data f = CPickle md' /\ py_clear (metadata c) = Some md').
Proof.
  intros Hg.
  assert (Hnin : ~ In m (glob_names (files c))).
  { intros H. apply glob_names_in in H. congruence. }
  pose proof (unlink_all_other (glob_names (files c)) (files c) m Hnin) as Hu.
  unfold clear.
  destruct (unlink_all (glob_names (files c)) (files c)) as [ok d'] eqn:E.
  simpl in Hu.
  destruct ok; [|split; intros _; [exact Hu|left; exact Hu]].
  destruct (py_clear (metadata c)) as [md'|] eqn:Hc;
    [|split; intros _; [exact Hu|left; exact Hu]].
  split.
  - intros Hm. rewrite save_lookup_other by exact Hm. exact Hu.
  - intros ->. unfold save_metadata, save_metadata_at. simpl.
    destruct (fs_lookup metadata_file d') as [f|] eqn:Hf; [destruct (locked f)|].
    + left. simpl. rewrite Hf. exact Hu.
    + right. simpl. rewrite fs_lookup_set, String.eqb_refl.
      do 2 eexists; split; [reflexivity|split; [reflexivity|first [exact Hc|reflexivity]]].
    + right. simpl. rewrite fs_lookup_set, String.eqb_refl.
      do 2 eexists; split; [reflexivity|split; [reflexivity|first [exact Hc|reflexivity]]].
Qed.

(** C5 (the failing case). When the first entry file the glob yields
    cannot be deleted, [clear] leaves the loop, and with it the whole
    [try]: no other entry file is deleted and the index is neither reset
    nor saved; the cache is exactly as before. *)
Theorem clear_stops_at_locked (now : Z) (c : cache) (n : string) (ns : list string) (f : file) :
  glob_names (files c) = n :: ns ->
  fs_lookup n (files c) = Some f ->
  locked f = true ->
  clear pickle_size now c = c.
Proof.
  intros Hg Hf Hl. unfold clear. rewrite Hg. simpl.
  rewrite (unlink_locked n (files c) f Hf Hl).
  destruct c; reflexivity.
Qed.

(** ** Corrupted entries *)

Lemma get_corrupt (now : Z) (k : string) (c : cache) (f : file) :
  fs_lookup (key_of k) (files c) = Some f -> data f = CJunk ->
  get md5hex pickle_size now k c =
  match unlink (key_of k) (files c) with
  | Some d' =>
      (None, mkCache d' (match py_pop (metadata c) (key_of k) with
                         | Some m => m | None => metadata c end) (max_size_bytes c))
  | None => (None, c)
  end.
Proof. intros Hf Hd. unfold get. rewrite Hf, Hd. reflexivity. Qed.

Lemma rec_of_pop (o o' : pyobj) (n m : string) :
  py_pop o n = Some o' -> rec_of o' m = if String.eqb m n then None else rec_of o m.
Proof.
  destruct o as [| | | |kvs]; simpl; try discriminate. intros [= <-]. simpl.
  induction kvs as [|[k v] kvs IH]; simpl; [str_cases|].
  destruct (String.eqb_spec k n); simpl; rewrite ?IH; str_cases.
Qed.

(** C3 (the failing case). On a corrupted entry that can be deleted, [get]
    returns [None], deletes the file and drops the in-memory record, but
    does not call [_save_metadata]: the index file is left as it was. *)
Theorem get_corrupt_index_not_saved (now : Z) (k : string) (c : cache) (f : file) :
  fs_lookup (key_of k) (files c) = Some f -> data f = CJunk -> locked f = false ->
  fst (get md5hex pickle_size now k c) = None /\
  fs_lookup (key_of k) (files (snd (get md5hex pickle_size now k c))) = None /\
  record (snd (get md5hex pickle_size now k c)) (key_of k) = None /\
  fs_lookup metadata_file (files (snd (get md5hex pickle_size now k c))) =
    fs_lookup metadata_file (files c).
Proof.
  intros Hf Hd Hl. rewrite (get_corrupt now k c f Hf Hd), (unlink_some _ _ f Hf Hl).
  simpl. rewrite !fs_lookup_remove, String.eqb_refl.
  destruct (String.eqb_spec metadata_file (key_of k)) as [E|_].
  { exfalso. exact (key_not_metadata k (eq_sym E)). }
  repeat split.
  unfold record. simpl.
  destruct (py_pop (metadata c) (key_of k)) as [o'|] eqn:Hp.
  - rewrite (rec_of_pop _ _ _ _ Hp), String.eqb_refl. reflexivity.
  - destruct (metadata c); simpl in Hp; try discriminate; reflexivity.
Qed.

(** C9 (amended). For an entry file that does not unpickle, [find] says
    [true] and [get] returns [None]; afterwards [find] says [false] when the
    file could be deleted, and still [true] when its deletion failed (the
    error is swallowed). *)
Theorem corrupt_find_then_get (now : Z) (k : string) (c : cache) (f : file) :
  fs_lookup (key_of k) (files c) = Some f -> data f = CJunk ->
  fst (find md5hex k c) = true /\
  fst (get md5hex pickle_size now k c) = None /\
  fst (find md5hex k (snd (get md5hex pickle_size now k c))) = locked f.
Proof.
  intros Hf Hd. rewrite (get_corrupt now k c f Hf Hd).
  unfold find, fs_exists. simpl. rewrite Hf.
  destruct (locked f) eqn:Hl.
  - rewrite (unlink_locked _ _ f Hf Hl). simpl. rewrite Hf. auto.
  - rewrite (unlink_some _ _ f Hf Hl). simpl.
    rewrite fs_lookup_remove, String.eqb_refl. auto.
Qed.

(** ** C4: a failed [put] *)

Lemma put_recover_at (again : bool) (tmp : string) (c : cache) (d : dir) :
  fst (put_recover again tmp (set_files c d)) = Raised /\
  metadata (snd (put_recover again tmp (set_files c d))) = metadata c /\
  (forall m, m <> tmp -> fs_lookup m (files (snd (put_recover again tmp (set_files c d)))) = fs_lookup m d).
Proof.
  destruct (put_recover_spec again tmp (set_files c d)) as (H1 & H2 & _ & H4 & _).
  split; [exact H1|]. split; [exact H2|]. exact H4.
Qed.

Ltac recover_at :=
  lazymatch goal with |- context [put_recover ?a ?t (set_files ?c0 ?d0)] =>
    destruct (put_recover_at a t c0 d0) as (Hraised & Hmeta & Hother);
    rewrite ?Hraised, ?Hmeta
  end.

(** C4 (the failing case). When [os.rename] fails, [shutil.move] falls back
    to copying the temporary file onto the entry file and then deleting the
    temporary file.  That copy is not atomic: [put] raises inside the move,
    its [except] branch swallows the error, and the in-memory index is
    unchanged, but the previously stored entry file has already been
    replaced, by a truncated file when the copy fails part way and by the
    new value when only the deletion of the source fails.  When the copy
    fails to open its target, the entry is kept.  When the fallback
    succeeds, [put] ends as if the rename had.  A [put] that fails earlier,
    at [open] or at [pickle.dump], leaves every file other than the
    temporary file and the in-memory index unchanged. *)
Theorem put_move_fallback (now : Z) (k : string) (v : pyobj) (again : bool) (c : cache) :
  is_locked (tmp_of k) (files c) = false -> is_locked (key_of k) (files c) = false ->
  (forall sz,
     fst (put md5hex pickle_size now k v (FailMove (CopyWrite sz) again) c) = Raised /\
     fs_lookup (key_of k) (files (snd (put md5hex pickle_size now k v (FailMove (CopyWrite sz) again) c)))
       = Some (mkFile CJunk sz now false) /\
     metadata (snd (put md5hex pickle_size now k v (FailMove (CopyWrite sz) again) c)) = metadata c) /\
  (fst (put md5hex pickle_size now k v (FailMove SrcUnlink again) c) = Raised /\
   fs_lookup (key_of k) (files (snd (put md5hex pickle_size now k v (FailMove SrcUnlink again) c)))
     = Some (mkFile (CPickle v) (pickle_size v) now false) /\
   metadata (snd (put md5hex pickle_size now k v (FailMove SrcUnlink again) c)) = metadata c) /\
  (fst (put md5hex pickle_size now k v (FailMove CopyOpen again) c) = Raised /\
   fs_lookup (key_of k) (files (snd (put md5hex pickle_size now k v (FailMove CopyOpen again) c)))
     = fs_lookup (key_of k) (files c) /\
   metadata (snd (put md5hex pickle_size now k v (FailMove CopyOpen again) c)) = metadata c) /\
  put md5hex pickle_size now k v (FailMove CopyDone false) c = put md5hex pickle_size now k v NoFault c /\
  (forall flt, (exists a, flt = FailOpen a) \/ (exists sz a, flt = FailDump sz a) ->
     fst (put md5hex pickle_size now k v flt c) = Raised /\
     metadata (snd (put md5hex pickle_size now k v flt c)) = metadata c /\
     (forall m, m <> tmp_of k ->
        fs_lookup m (files (snd (put md5hex pickle_size now k v flt c))) = fs_lookup m (files c))).
Proof.
  intros Ht Hk.
  assert (Hkt : key_of k <> tmp_of k) by (intros E; exact (tmp_not_key k k (eq_sym E))).
  assert (Hk' : forall f, is_locked (key_of k) (fs_set (tmp_of k) f (files c)) = false)
    by (intros f; rewrite is_locked_set_other by exact Hkt; exact Hk).
  unfold put. fold (key_of k). change (with_suffix (key_of k) ".tmp") with (tmp_of k).
  cbv zeta. cbn [orb]. rewrite Ht, !Hk'. cbn [recover_fails index_fault].
  split; [|split; [|split; [|split]]].
  - intros sz. recover_at. split; [reflexivity|]. split; [|reflexivity].
    rewrite Hother by exact Hkt. rewrite fs_lookup_set, String.eqb_refl. reflexivity.
  - recover_at. split; [reflexivity|]. split; [|reflexivity].
    rewrite Hother by exact Hkt. rewrite fs_lookup_set, String.eqb_refl. reflexivity.
  - recover_at. split; [reflexivity|]. split; [|reflexivity].
    rewrite Hother by exact Hkt. rewrite fs_lookup_set.
    destruct (String.eqb_spec (key_of k) (tmp_of k)); [congruence|reflexivity].
  - rewrite fs_remove_set by exact Hkt. reflexivity.
  - intros flt [[a ->]|(sz & a & ->)]; cbn [orb].
    + recover_at. split; [reflexivity|]. split; [reflexivity|]. exact Hother.
    + recover_at. split; [reflexivity|]. split; [reflexivity|].
      intros m Hm. rewrite (Hother m Hm), fs_lookup_set.
      destruct (String.eqb_spec m (tmp_of k)); [congruence|reflexivity].
Qed.


(** ** Index records *)

Lemma dict_lookup_app (m : string) (kvs e : list (string * pyobj)) :
  dict_lookup m (kvs ++ e) =
  match dict_lookup m kvs with Some v => Some v | None => dict_lookup m e end.
Proof.
  induction kvs as [|[k v] kvs IH]; simpl; [reflexivity|].
  destruct (String.eqb k m); [reflexivity|exact IH].
Qed.

Lemma dict_lookup_none (n : string) (kvs : list (string * pyobj)) :
  existsb (fun kv => String.eqb (fst kv) n) kvs = false -> dict_lookup n kvs = None.
Proof.
  induction kvs as [|[k v] kvs IH]; simpl; [reflexivity|].
  intros H. apply orb_false_iff in H. destruct H as [H1 H2]. rewrite H1. exact (IH H2).
Qed.

Lemma dict_lookup_map_set (m n : string) (v : pyobj) (kvs : list (string * pyobj)) :
  dict_lookup m (map (fun kv => if String.eqb (fst kv) n then (n, v) else kv) kvs) =
  if String.eqb m n
  then (if existsb (fun kv => String.eqb (fst kv) n) kvs then Some v else None)
  else dict_lookup m kvs.
Proof.
  induction kvs as [|[k w] kvs IH]; simpl; [str_cases|].
  destruct (String.eqb_spec k n); simpl; rewrite ?IH; str_cases.
Qed.

Lemma rec_of_setitem (o o' : pyobj) (n m : string) (v : pyobj) :
  py_setitem o n v = Some o' -> rec_of o' m = if String.eqb m n then Some v else rec_of o m.
Proof.
  destruct o as [| | | |kvs]; simpl; try discriminate.
  destruct (existsb (fun kv => String.eqb (fst kv) n) kvs) eqn:Ex; intros [= <-]; simpl.
  - rewrite dict_lookup_map_set, Ex. reflexivity.
  - rewrite dict_lookup_app. simpl.
    destruct (String.eqb_spec m n) as [->|Hmn].
    + rewrite (dict_lookup_none n kvs Ex), String.eqb_refl. reflexivity.
    + destruct (dict_lookup m kvs); [reflexivity|]. str_cases.
Qed.

Lemma evict_rec_file (maxb total : Z) (l : list (string * Z * pyobj)) :
  forall removed d md m,
  rec_of (snd (evict maxb total removed l d md)) m = rec_of md m \/
  (rec_of (snd (evict maxb total removed l d md)) m = None /\
   fs_lookup m (fst (evict maxb total removed l d md)) = None).
Proof.
  induction l as [|[[n sz] t] l IH]; intros removed d md m; cbn [evict]; [auto|].
  destruct (5 * (total - removed) <=? 4 * maxb); [cbn [snd]; auto|].
  destruct (unlink n d) as [d'|] eqn:U; [|apply IH].
  destruct (py_pop md n) as [md1|] eqn:Hp; [|apply IH].
  pose proof (rec_of_pop md md1 n m Hp) as Hr.
  destruct (IH (removed + sz) d' md1 m) as [H|H]; [|auto].
  rewrite H, Hr. destruct (String.eqb_spec m n) as [->|Hmn]; [|auto].
  right. split; [reflexivity|].
  destruct (evict_lookup maxb total l (removed + sz) d' md1 n) as [H2|H2]; [|exact H2].
  rewrite H2, (unlink_lookup n n d d' U), String.eqb_refl. reflexivity.
Qed.

Lemma cleanup_rec_file (now : Z) (c : cache) (m : string) :
  m <> metadata_file ->
  record (cleanup now c) m = record c m \/
  (record (cleanup now c) m = None /\ fs_lookup m (files (cleanup now c)) = None).
Proof.
  intros Hm. unfold cleanup_old_files.
  destruct (scan (metadata c) (files c)) as [l|]; [|auto].
  destruct (max_size_bytes c <? total_of l); [|auto].
  destruct (py_sort l) as [srt|]; [|auto].
  pose proof (evict_rec_file (max_size_bytes c) (total_of l) srt 0 (files c) (metadata c) m) as H.
  destruct (evict (max_size_bytes c) (total_of l) 0 srt (files c) (metadata c)) as [d' md'].
  unfold record. rewrite (proj1 (save_metadata_same _ _)), save_lookup_other by exact Hm.
  exact H.
Qed.

Lemma cleanup_rec_sub (now : Z) (c : cache) (m : string) (v : pyobj) :
  record (cleanup now c) m = Some v -> record c m = Some v.
Proof.
  intros H. unfold cleanup_old_files in H.
  destruct (scan (metadata c) (files c)) as [l|]; [|exact H].
  destruct (max_size_bytes c <? total_of l); [|exact H].
  destruct (py_sort l) as [srt|]; [|exact H].
  pose proof (evict_rec_file (max_size_bytes c) (total_of l) srt 0 (files c) (metadata c) m) as He.
  destruct (evict (max_size_bytes c) (total_of l) 0 srt (files c) (metadata c)) as [d' md'].
  unfold record in *. rewrite (proj1 (save_metadata_same _ _)) in H. simpl in *.
  destruct He as [He|[He _]]; congruence.
Qed.

Lemma record_save (now : Z) (c : cache) (m : string) :
  record (save now c) m = record c m.
Proof. unfold record. rewrite (proj1 (save_metadata_same now c)). reflexivity. Qed.

Lemma record_save_at (df : option Z) (now : Z) (c : cache) (m : string) :
  record (save_at df now c) m = record c m.
Proof. unfold record. rewrite (proj1 (save_at_same df now c)). reflexivity. Qed.

Lemma corrupted_records (c : cache) (n m : string) (w : pyobj) (d' : dir) :
  rec_of (match py_pop (metadata c) n with Some md => md | None => metadata c end) m = Some w ->
  record c m = Some w.
Proof.
  unfold record. destruct (py_pop (metadata c) n) as [md|] eqn:Hp; [|auto].
  rewrite (rec_of_pop _ _ _ _ Hp). str_cases.
Qed.

Lemma get_records (now : Z) (k : string) (c : cache) (m : string) (w : pyobj) :
  record (snd (get md5hex pickle_size now k c)) m = Some w ->
  record c m = Some w \/ w = PNum now.
Proof.
  unfold get. fold (key_of k).
  destruct (fs_lookup (key_of k) (files c)) as [f|]; [|auto].
  destruct (pickle_load (data f)) as [v|];
    [destruct (py_setitem (metadata c) (key_of k) (PNum now)) as [md'|] eqn:Hs|].
  - simpl. rewrite record_save. unfold record, set_metadata. simpl.
    rewrite (rec_of_setitem _ _ _ _ _ Hs). destruct (String.eqb m (key_of k)).
    + intros [= <-]. auto.
    + auto.
  - destruct (unlink (key_of k) (files c)) as [d'|]; simpl; [|auto].
    intros H. left. exact (corrupted_records c (key_of k) m w d' H).
  - destruct (unlink (key_of k) (files c)) as [d'|]; simpl; [|auto].
    intros H. left. exact (corrupted_records c (key_of k) m w d' H).
Qed.

Lemma get_hit (now : Z) (k : string) (c : cache) (v : pyobj) :
  fst (get md5hex pickle_size now k c) = Some v ->
  record (snd (get md5hex pickle_size now k c)) (key_of k) = Some (PNum now).
Proof.
  unfold get. fold (key_of k).
  destruct (fs_lookup (key_of k) (files c)) as [f|]; [|discriminate].
  destruct (pickle_load (data f)) as [w|].
  - destruct (py_setitem (metadata c) (key_of k) (PNum now)) as [md'|] eqn:Hs.
    + intros _. simpl. rewrite record_save. unfold record, set_metadata. simpl.
      rewrite (rec_of_setitem _ _ _ _ _ Hs), String.eqb_refl. reflexivity.
    + destruct (unlink (key_of k) (files c)); discriminate.
  - destruct (unlink (key_of k) (files c)); discriminate.
Qed.

Lemma put_records_recover (again : bool) (tmp : string) (c : cache) (m : string) (w : pyobj) :
  record (snd (put_recover again tmp c)) m = Some w -> record c m = Some w.
Proof.
  unfold record. rewrite (proj1 (proj2 (put_recover_spec again tmp c))). auto.
Qed.

Lemma put_records (now : Z) (k : string) (v : pyobj) (flt : put_fault) (c : cache)
    (m : string) (w : pyobj) :
  record (snd (put md5hex pickle_size now k v flt c)) m = Some w ->
  record c m = Some w \/ w = PNum now.
Proof.
  destruct (put_shape now k v flt c) as [(d' & _ & ->)|(md' & Hs & ->)]; intros H.
  - left. exact (put_records_recover _ _ _ _ _ H).
  - cbn [snd] in H. apply cleanup_rec_sub in H. rewrite record_save_at in H.
    unfold record in *. simpl in H. rewrite (rec_of_setitem _ _ _ _ _ Hs) in H.
    destruct (String.eqb m (key_of k)); [injection H; auto|auto].
Qed.

Lemma clear_records (now : Z) (c : cache) (m : string) (w : pyobj) :
  record (clear pickle_size now c) m = Some w -> record c m = Some w.
Proof.
  unfold clear. destruct (unlink_all (glob_names (files c)) (files c)) as [[|] d'];
    [|unfold record; simpl; auto].
  destruct (py_clear (metadata c)) as [md'|] eqn:Hc; [|unfold record; simpl; auto].
  rewrite record_save. unfold record. simpl.
  destruct (metadata c); simpl in Hc; try discriminate; injection Hc as <-; discriminate.
Qed.

Lemma exec_records (now : Z) (o : op) (c : cache) (m : string) (w : pyobj) :
  record (exec md5hex pickle_size now o c) m = Some w -> record c m = Some w \/ w = PNum now.
Proof.
  destruct o as [k|k v flt|k| |]; simpl.
  - apply get_records.
  - apply put_records.
  - auto.
  - intros H. left. exact (clear_records now c m w H).
  - auto.
Qed.

(** C7. With a clock that does not go back ([t <= t']) and an index whose
    records are timestamps no later than [t] (all this code ever stores),
    any operation at time [t'] keeps every record a timestamp no later than
    [t'] and never lowers a record that survives it; a [get] that returns a
    value sets the record of its entry to [t']; a [put] whose [try] body
    completes sets it to [t'], unless its own eviction pass removed the
    entry file and the record with it. *)
Theorem timestamps_monotone (t t' : Z) (o : op) (c : cache) :
  t <= t' -> stamps_le c t ->
  stamps_le (exec md5hex pickle_size t' o c) t' /\
  (forall n z z', record c n = Some (PNum z) ->
     record (exec md5hex pickle_size t' o c) n = Some (PNum z') -> z <= z') /\
  (forall k v, o = OGet k -> fst (get md5hex pickle_size t' k c) = Some v ->
     record (exec md5hex pickle_size t' o c) (key_of k) = Some (PNum t')) /\
  (forall k v flt, o = OPut k v flt -> fst (put md5hex pickle_size t' k v flt c) = Completed ->
     record (exec md5hex pickle_size t' o c) (key_of k) = Some (PNum t') \/
     (record (exec md5hex pickle_size t' o c) (key_of k) = None /\
      fs_exists (key_of k) (files (exec md5hex pickle_size t' o c)) = false)).
Proof.
  intros Htt Hs. split; [|split; [|split]].
  - intros n w Hw. destruct (exec_records t' o c n w Hw) as [H| ->].
    + destruct (Hs n w H) as [z [-> Hz]]. exists z. split; [reflexivity|lia].
    + exists t'. split; [reflexivity|lia].
  - intros n z z' Hz Hz'. destruct (exec_records t' o c n _ Hz') as [H|H].
    + rewrite Hz in H. injection H as ->. lia.
    + injection H as ->. destruct (Hs n _ Hz) as [z0 [E Hz0]]. injection E as <-. lia.
  - intros k v -> Hv. simpl. exact (get_hit t' k c v Hv).
  - intros k v flt -> Hc. simpl.
    destruct (put_shape t' k v flt c) as [(d' & _ & E)|(md' & Hset & E)].
    { pose proof (put_raised t' k v flt c d' E) as R. rewrite Hc in R. discriminate R. }
    rewrite E. cbn [snd].
    set (c1 := save_at (index_fault flt) t' (mkCache _ md' (max_size_bytes c))).
    destruct (cleanup_rec_file t' c1 (key_of k) (key_not_metadata k)) as [H|[H1 H2]].
    + left. rewrite H. unfold c1. rewrite record_save_at. unfold record. simpl.
      rewrite (rec_of_setitem _ _ _ _ _ Hset), String.eqb_refl. reflexivity.
    + right. split; [exact H1|]. unfold fs_exists. rewrite H2. reflexivity.
Qed.

(** ** Stable insertion sort *)

(** On numeric keys, [<] on the keys is [<] on their numbers. *)
Lemma insert_by_time_key (e : string * Z * pyobj) (l : list (string * Z * pyobj)) :
  is_num (entry_time e) = true -> (forall x, In x l -> is_num (entry_time x) = true) ->
  insert_by_time e l = insert_key (fun x => num_of (entry_time x)) e l.
Proof.
  intros He Hl. induction l as [|y l IH]; simpl; [reflexivity|].
  rewrite IH by (intros x Hx; apply Hl; right; exact Hx).
  assert (Hy : is_num (entry_time y) = true) by (apply Hl; left; reflexivity).
  destruct (entry_time e); try discriminate. destruct (entry_time y); try discriminate.
  reflexivity.
Qed.

Lemma insert_by_time_perm (x : string * Z * pyobj) (l : list (string * Z * pyobj)) :
  Permutation (insert_by_time x l) (x :: l).
Proof.
  induction l as [|y l IH]; simpl; [reflexivity|].
  destruct (py_lt_b (entry_time x) (entry_time y)); [reflexivity|].
  rewrite IH. apply perm_swap.
Qed.

Lemma fold_insert_by_time_perm (l acc : list (string * Z * pyobj)) :
  Permutation (fold_left (fun a e => insert_by_time e a) l acc) (l ++ acc).
Proof.
  revert acc. induction l as [|x l IH]; intros acc; simpl; [reflexivity|].
  rewrite IH, insert_by_time_perm. symmetry. apply Permutation_middle.
Qed.

Lemma all_compare_num (os : list pyobj) :
  (forall o, In o os -> is_num o = true) -> all_compare os = true.
Proof.
  induction os as [|o os IH]; intros H; [reflexivity|]. simpl.
  rewrite IH by (intros o' Ho'; apply H; right; exact Ho').
  rewrite andb_true_r. apply forallb_forall. intros y Hy.
  assert (Ho : is_num o = true) by (apply H; left; reflexivity).
  assert (Hy' : is_num y = true) by (apply H; right; exact Hy).
  destruct o; try discriminate. destruct y; try discriminate. reflexivity.
Qed.

Lemma insert_key_map {A B : Type} (g : A -> B) (kb : B -> Z) (ka : A -> Z) (x : A) (l : list A) :
  (forall y, kb (g y) = ka y) ->
  map g (insert_key ka x l) = insert_key kb (g x) (map g l).
Proof.
  intros Hk. induction l as [|y l IH]; simpl; [reflexivity|].
  rewrite !Hk. destruct (ka x <? ka y); simpl; [reflexivity|]. rewrite IH. reflexivity.
Qed.

Lemma fold_insert_map {A B : Type} (g : A -> B) (kb : B -> Z) (ka : A -> Z) (l acc : list A) :
  (forall y, kb (g y) = ka y) ->
  fold_left (fun a e => insert_key kb e a) (map g l) (map g acc) =
  map g (fold_left (fun a e => insert_key ka e a) l acc).
Proof.
  intros Hk. revert acc. induction l as [|x l IH]; intros acc; simpl; [reflexivity|].
  rewrite <- (insert_key_map g kb ka x acc Hk). apply IH.
Qed.

Lemma insert_key_perm {A : Type} (key : A -> Z) (x : A) (l : list A) :
  Permutation (insert_key key x l) (x :: l).
Proof.
  induction l as [|y l IH]; simpl; [reflexivity|].
  destruct (key x <? key y); [reflexivity|].
  rewrite IH. apply perm_swap.
Qed.

Lemma fold_insert_perm {A : Type} (key : A -> Z) (l acc : list A) :
  Permutation (fold_left (fun a e => insert_key key e a) l acc) (l ++ acc).
Proof.
  revert acc. induction l as [|x l IH]; intros acc; simpl; [reflexivity|].
  rewrite IH, insert_key_perm. symmetry. apply Permutation_middle.
Qed.

Lemma insert_key_hd {A : Type} (key : A -> Z) (x y : A) (l : list A) :
  HdRel (fun a b => key a <= key b) y l -> key y <= key x ->
  HdRel (fun a b => key a <= key b) y (insert_key key x l).
Proof.
  intros H Hyx. destruct l as [|z l]; simpl; [constructor; exact Hyx|].
  destruct (key x <? key z); constructor; [exact Hyx|].
  inversion H; assumption.
Qed.

Lemma insert_key_sorted {A : Type} (key : A -> Z) (x : A) (l : list A) :
  Sorted (fun a b => key a <= key b) l ->
  Sorted (fun a b => key a <= key b) (insert_key key x l).
Proof.
  induction l as [|y l IH]; intros Hs; simpl; [repeat constructor|].
  destruct (key x <? key y) eqn:E.
  - apply Z.ltb_lt in E. constructor; [exact Hs|constructor; lia].
  - apply Z.ltb_ge in E. inversion Hs as [|? ? Hs' Hhd]; subst.
    constructor; [exact (IH Hs')|]. apply insert_key_hd; assumption.
Qed.

Lemma fold_insert_sorted {A : Type} (key : A -> Z) (l acc : list A) :
  Sorted (fun a b => key a <= key b) acc ->
  Sorted (fun a b => key a <= key b) (fold_left (fun a e => insert_key key e a) l acc).
Proof.
  revert acc. induction l as [|x l IH]; intros acc Hs; simpl; [exact Hs|].
  apply IH, insert_key_sorted, Hs.
Qed.

(** ** The deletion loop *)

Lemma drop_names_nil {A : Type} (l : list (string * A)) : drop_names [] l = l.
Proof.
  unfold drop_names. induction l as [|x l IH]; simpl; [reflexivity|]. f_equal. exact IH.
Qed.

Lemma drop_names_remove {A : Type} (ns : list string) (n : string) (l : list (string * A)) :
  drop_names ns (filter (fun x => negb (String.eqb (fst x) n)) l) = drop_names (n :: ns) l.
Proof.
  unfold drop_names. induction l as [|[m a] l IH]; simpl; [reflexivity|].
  destruct (String.eqb_spec m n); simpl; rewrite IH; reflexivity.
Qed.

Lemma deleted_cons (n : string) (f : file) (l : dir) :
  deleted ((n, f) :: l) = if locked f then deleted l else (n, f) :: deleted l.
Proof. unfold deleted. simpl. destruct (locked f); reflexivity. Qed.

Lemma summed_size_cons (n : string) (f : file) (l : dir) :
  summed_size ((n, f) :: l) = st_size f + summed_size l.
Proof. reflexivity. Qed.

Lemma evict_spec (maxb total : Z) (kvs : list (string * pyobj)) (s : dir) :
  forall removed d kvs',
  NoDup (map fst s) ->
  (forall n f, In (n, f) s -> fs_lookup n d = Some f) ->
  exists k,
    (forall j, (j < k)%nat ->
       4 * maxb < 5 * (total - (removed + summed_size (deleted (firstn j s))))) /\
    (k = List.length s \/
     5 * (total - (removed + summed_size (deleted (firstn k s)))) <= 4 * maxb) /\
    evict maxb total removed (map (scan_entry kvs) s) d (PDict kvs') =
      (drop_names (map fst (deleted (firstn k s))) d,
       PDict (drop_names (map fst (deleted (firstn k s))) kvs')).
Proof.
  induction s as [|[n f] s IH]; intros removed d kvs' Hnd Hin.
  - exists 0%nat. split; [intros j Hj; lia|]. split; [left; reflexivity|].
    simpl. rewrite !drop_names_nil. reflexivity.
  - simpl in Hnd. inversion Hnd as [|? ? Hn Hnd']; subst.
    assert (Hin' : forall m g, In (m, g) s -> fs_lookup m d = Some g)
      by (intros m g H; apply Hin; right; exact H).
    cbn [map evict]. unfold scan_entry at 1. cbn [fst snd].
    destruct (5 * (total - removed) <=? 4 * maxb) eqn:E.
    + exists 0%nat. split; [intros j Hj; lia|]. split.
      * right. apply Z.leb_le in E.
        change (summed_size (deleted (firstn 0 ((n, f) :: s)))) with 0. lia.
      * simpl. unfold deleted. simpl. rewrite !drop_names_nil. reflexivity.
    + apply Z.leb_gt in E.
      assert (Hf : fs_lookup n d = Some f) by (apply Hin; left; reflexivity).
      destruct (locked f) eqn:Hl.
      * rewrite (unlink_locked n d f Hf Hl).
        destruct (IH removed d kvs' Hnd' Hin') as (k & Hlt & Hstop & Hev).
        exists (S k). split; [|split].
        -- intros [|j] Hj; [change (summed_size (deleted (firstn 0 ((n, f) :: s)))) with 0; lia|].
           cbn [firstn]. rewrite deleted_cons, Hl. apply Hlt. lia.
        -- cbn [firstn List.length]. rewrite deleted_cons, Hl.
           destruct Hstop as [->|H]; [left; reflexivity|right; exact H].
        -- cbn [firstn]. rewrite deleted_cons, Hl. exact Hev.
      * rewrite (unlink_some n d f Hf Hl). cbn [py_pop].
        assert (Hin'' : forall m g, In (m, g) s -> fs_lookup m (fs_remove n d) = Some g).
        { intros m g H. rewrite fs_lookup_remove.
          destruct (String.eqb_spec m n) as [->|_]; [|exact (Hin' m g H)].
          exfalso. apply Hn. apply (in_map fst) in H. exact H. }
        destruct (IH (removed + st_size f) (fs_remove n d)
                    (filter (fun kv => negb (String.eqb (fst kv) n)) kvs') Hnd' Hin'')
          as (k & Hlt & Hstop & Hev).
        exists (S k). split; [|split].
        -- intros [|j] Hj; [change (summed_size (deleted (firstn 0 ((n, f) :: s)))) with 0; lia|].
           cbn [firstn]. rewrite deleted_cons, Hl, summed_size_cons.
           specialize (Hlt j ltac:(lia)). lia.
        -- cbn [firstn List.length]. rewrite deleted_cons, Hl, summed_size_cons.
           destruct Hstop as [->|H]; [left; reflexivity|right; lia].
        -- cbn [firstn]. rewrite deleted_cons, Hl. cbn [map fst].
           rewrite Hev. unfold fs_remove. rewrite !drop_names_remove. reflexivity.
Qed.

(** ** C2: the eviction pass *)

Lemma scan_dict (kvs : list (string * pyobj)) (d : dir) :
  scan (PDict kvs) d = Some (map (scan_entry kvs) (entry_files d)).
Proof.
  unfold entry_files. induction d as [|[n f] d IH]; simpl; [reflexivity|].
  destruct (glob_entry n); simpl; rewrite IH; reflexivity.
Qed.

Lemma total_of_map (kvs : list (string * pyobj)) (l : dir) :
  total_of (map (scan_entry kvs) l) = summed_size l.
Proof. induction l as [|[n f] l IH]; simpl; [reflexivity|]. rewrite IH. reflexivity. Qed.

Lemma py_sort_numeric (l : list (string * Z * pyobj)) :
  (forall e, In e l -> is_num (entry_time e) = true) ->
  py_sort l = Some (fold_left (fun acc e => insert_by_time e acc) l []).
Proof.
  intros H. destruct l as [|e1 [|e2 l]]; [reflexivity|reflexivity|].
  unfold py_sort. rewrite all_compare_num; [reflexivity|].
  intros o Ho. apply in_map_iff in Ho. destruct Ho as [e [<- He]]. exact (H e He).
Qed.

Lemma fold_insert_by_time (l acc : list (string * Z * pyobj)) :
  (forall e, In e l -> is_num (entry_time e) = true) ->
  (forall e, In e acc -> is_num (entry_time e) = true) ->
  fold_left (fun a e => insert_by_time e a) l acc =
  fold_left (fun a e => insert_key (fun x => num_of (entry_time x)) e a) l acc.
Proof.
  revert acc. induction l as [|x l IH]; intros acc Hl Hacc; simpl; [reflexivity|].
  assert (Hx : is_num (entry_time x) = true) by (apply Hl; left; reflexivity).
  rewrite (insert_by_time_key x acc Hx Hacc). apply IH.
  - intros e He. apply Hl. right. exact He.
  - intros e He. apply (Permutation_in _ (insert_key_perm _ x acc)) in He.
    destruct He as [<-|He]; [exact Hx|exact (Hacc e He)].
Qed.

Lemma nodup_filter_names (p : string * file -> bool) (d : dir) :
  NoDup (map fst d) -> NoDup (map fst (filter p d)).
Proof.
  induction d as [|[n f] d IH]; intros H; simpl; [constructor|].
  inversion H as [|? ? Hn Hd]; subst.
  destruct (p (n, f)); simpl; [|exact (IH Hd)].
  constructor; [|exact (IH Hd)].
  intros Hin. apply Hn. apply in_map_iff in Hin. destruct Hin as [[m g] [Hm Hin]].
  simpl in Hm. subst m. apply filter_In in Hin. exact (in_map fst _ _ (proj1 Hin)).
Qed.

Lemma nodup_lookup (n : string) (f : file) (d : dir) :
  NoDup (map fst d) -> In (n, f) d -> fs_lookup n d = Some f.
Proof.
  induction d as [|[m g] d IH]; intros Hnd Hin; [destruct Hin|].
  inversion Hnd as [|? ? Hm Hd]; subst. simpl.
  destruct Hin as [[= -> ->]|Hin].
  - rewrite String.eqb_refl. reflexivity.
  - destruct (String.eqb_spec m n) as [->|_]; [|exact (IH Hd Hin)].
    exfalso. apply Hm. apply (in_map fst) in Hin. exact Hin.
Qed.

(** The eviction pass on a dict index of timestamps. *)
Lemma cleanup_evicts (now : Z) (c : cache) (kvs : list (string * pyobj)) :
  metadata c = PDict kvs ->
  (forall n v, dict_lookup n kvs = Some v -> is_num v = true) ->
  NoDup (map fst (files c)) ->
  (summed_size (entry_files (files c)) <= max_size_bytes c -> cleanup now c = c) /\
  (max_size_bytes c < summed_size (entry_files (files c)) ->
   exists s k,
     Permutation s (entry_files (files c)) /\
     Sorted (fun a b => recency kvs a <= recency kvs b) s /\
     (forall j, (j < k)%nat ->
        4 * max_size_bytes c <
        5 * (summed_size (entry_files (files c)) - summed_size (deleted (firstn j s)))) /\
     (k = List.length s \/
      5 * (summed_size (entry_files (files c)) - summed_size (deleted (firstn k s)))
        <= 4 * max_size_bytes c) /\
     cleanup now c =
       save now (mkCache (drop_names (map fst (deleted (firstn k s))) (files c))
                         (PDict (drop_names (map fst (deleted (firstn k s))) kvs))
                         (max_size_bytes c))).
Proof.
  intros Hmd Hnum Hnd.
  set (E := entry_files (files c)).
  set (total := summed_size E).
  assert (Hscan : scan (metadata c) (files c) = Some (map (scan_entry kvs) E))
    by (rewrite Hmd; apply scan_dict).
  assert (Htot : total_of (map (scan_entry kvs) E) = total) by apply total_of_map.
  assert (Hkey : forall x, num_of (entry_time (scan_entry kvs x)) = recency kvs x).
  { intros [n f]. unfold scan_entry, recency. simpl.
    destruct (dict_lookup n kvs) as [v|] eqn:Hv; [|reflexivity].
    specialize (Hnum n v Hv). destruct v; try discriminate; reflexivity. }
  split.
  - intros Hle. unfold cleanup_old_files. rewrite Hscan, Htot.
    destruct (Z.ltb_spec (max_size_bytes c) total); [lia|reflexivity].
  - intros Hgt.
    set (s := fold_left (fun a e => insert_key (recency kvs) e a) E []).
    assert (Hsort : py_sort (map (scan_entry kvs) E) = Some (map (scan_entry kvs) s)).
    { assert (Hn : forall e, In e (map (scan_entry kvs) E) -> is_num (entry_time e) = true).
      { intros e He. apply in_map_iff in He. destruct He as [[n f] [<- _]].
        unfold scan_entry. simpl. destruct (dict_lookup n kvs) as [v|] eqn:Hv;
          [exact (Hnum n v Hv)|reflexivity]. }
      rewrite (py_sort_numeric _ Hn). f_equal.
      rewrite (fold_insert_by_time _ [] Hn (fun e (He : In e []) => match He with end)).
      exact (fold_insert_map (scan_entry kvs) _ (recency kvs) E [] Hkey). }
    assert (Hperm : Permutation s E).
    { unfold s. rewrite fold_insert_perm, app_nil_r. reflexivity. }
    assert (HndE : NoDup (map fst E)) by (apply nodup_filter_names; exact Hnd).
    assert (Hnds : NoDup (map fst s)).
    { apply (Permutation_NoDup (Permutation_map fst (Permutation_sym Hperm))). exact HndE. }
    assert (Hins : forall n f, In (n, f) s -> fs_lookup n (files c) = Some f).
    { intros n f H. apply nodup_lookup; [exact Hnd|].
      apply (Permutation_in _ Hperm) in H. unfold E, entry_files in H.
      apply filter_In in H. exact (proj1 H). }
    destruct (evict_spec (max_size_bytes c) total kvs s 0 (files c) kvs Hnds Hins)
      as (k & Hlt & Hstop & Hev).
    exists s, k. split; [exact Hperm|]. split.
    { apply fold_insert_sorted. constructor. }
    split; [intros j Hj; specialize (Hlt j Hj); fold E total; lia|].
    split; [destruct Hstop as [H|H]; [left; exact H|right; fold E total; lia]|].
    unfold cleanup_old_files. rewrite Hscan, Htot.
    destruct (Z.ltb_spec (max_size_bytes c) total); [|lia].
    rewrite Hsort, Hmd, Hev. reflexivity.
Qed.

(** C2. With an index that is a dict of timestamps (what this code writes)
    and a listing without repeated names: when the entry files sum to at
    most [max_size_bytes] the pass changes nothing and saves nothing;
    otherwise the entry files are put in ascending order of recency (index
    timestamp, else modification time), and they are deleted in that order,
    with [removed_size] summing the sizes of the files deleted so far, up to
    the first point where [total_size - removed_size <= max_size_bytes * 0.8]
    (or the end of the list); a deletion that fails is skipped. Each deleted
    file loses its index record, and the index is saved once, at the end. *)
Theorem eviction_pass (now : Z) (c : cache) (kvs : list (string * pyobj)) :
  metadata c = PDict kvs ->
  (forall n v, dict_lookup n kvs = Some v -> is_num v = true) ->
  NoDup (map fst (files c)) ->
  (summed_size (entry_files (files c)) <= max_size_bytes c -> cleanup now c = c) /\
  (max_size_bytes c < summed_size (entry_files (files c)) ->
   exists s k,
     Permutation s (entry_files (files c)) /\
     Sorted (fun a b => recency kvs a <= recency kvs b) s /\
     (forall j, (j < k)%nat ->
        4 * max_size_bytes c <
        5 * (summed_size (entry_files (files c)) - summed_size (deleted (firstn j s)))) /\
     (k = List.length s \/
      5 * (summed_size (entry_files (files c)) - summed_size (deleted (firstn k s)))
        <= 4 * max_size_bytes c) /\
     cleanup now c =
       save now (mkCache (drop_names (map fst (deleted (firstn k s))) (files c))
                         (PDict (drop_names (map fst (deleted (firstn k s))) kvs))
                         (max_size_bytes c))).
Proof. exact (cleanup_evicts now c kvs). Qed.

(** ** Further properties of the code *)

Lemma string_of_list_ascii_app (l1 l2 : list ascii) :
  string_of_list_ascii (l1 ++ l2) =
  String.append (string_of_list_ascii l1) (string_of_list_ascii l2).
Proof. induction l1 as [|a l1 IH]; simpl; [reflexivity|]. now rewrite IH. Qed.

Lemma key_stem (k : string) :
  string_of_list_ascii (rev (rev (ascii_list (md5hex k)) ++ rev (ascii_list "embedding_"))) =
  String.append "embedding_" (md5hex k).
Proof.
  rewrite rev_app_distr, !rev_involutive, string_of_list_ascii_app.
  unfold ascii_list. rewrite !string_of_list_ascii_of_string. reflexivity.
Qed.

Lemma prefix_append (s t : string) : String.prefix s (String.append s t) = true.
Proof.
  induction s as [|a s IH]; simpl; [destruct t; reflexivity|].
  destruct (ascii_dec a a) as [_|E]; [exact IH|contradiction E; reflexivity].
Qed.

Lemma glob_key (k : string) : glob_entry (key_of k) = true.
Proof. unfold glob_entry. rewrite rev_ascii_key, key_stem. apply prefix_append. Qed.

Lemma ascii_list_inj (s t : string) : ascii_list s = ascii_list t -> s = t.
Proof.
  intros H. rewrite <- (string_of_list_ascii_of_string s), <- (string_of_list_ascii_of_string t).
  exact (f_equal string_of_list_ascii H).
Qed.



(** The names [put] writes: the entry file "embedding_<md5>.pkl" is matched
    by the glob of [_cleanup_old_files], [clear] and [get_cache_info]; the
    temporary file is "embedding_<md5>.tmp", which the glob does not match;
    neither is the index file. *)
Theorem entry_file_names (k : string) :
  glob_entry (key_of k) = true /\
  tmp_of k = String.append "embedding_" (String.append (md5hex k) ".tmp") /\
  glob_entry (tmp_of k) = false /\
  key_of k <> metadata_file /\ tmp_of k <> metadata_file.
Proof.
  split; [|split; [|split; [exact (glob_tmp k)|split; [exact (key_not_metadata k)|exact (tmp_not_metadata k)]]]].
  - exact (glob_key k).
  - unfold temp_key, with_suffix. rewrite rev_ascii_key.
    assert (Hne : exists a r, rev (ascii_list (md5hex k)) ++ rev (ascii_list "embedding_") = a :: r).
    { destruct (rev (ascii_list (md5hex k))) as [|a r]; simpl; eauto. }
    destruct Hne as (a & r & Hr).
    change (split_dot ("l"%char :: "k"%char :: "p"%char :: "."%char ::
              rev (ascii_list (md5hex k)) ++ rev (ascii_list "embedding_")))
      with (Some (["l"%char; "k"%char; "p"%char],
                  rev (ascii_list (md5hex k)) ++ rev (ascii_list "embedding_"))).
    rewrite Hr. cbv iota. rewrite <- Hr, key_stem. reflexivity.
Qed.

(** Two keys share an entry file exactly when their digests are equal. *)
Theorem entry_key_injective (k k' : string) :
  get_cache_key md5hex k = get_cache_key md5hex k' <-> md5hex k = md5hex k'.
Proof.
  split; [|unfold get_cache_key; intros ->; reflexivity].
  intros H. apply (f_equal (fun s => rev (ascii_list s))) in H.
  rewrite !rev_ascii_key in H. injection H as H.
  apply app_inv_tail in H. apply (f_equal (@rev ascii)) in H.
  rewrite !rev_involutive in H. exact (ascii_list_inj _ _ H).
Qed.


Lemma save_then_load (now : Z) (c : cache) :
  is_locked metadata_file (files c) = false ->
  load_metadata (files (save now c)) = metadata c.
Proof.
  unfold is_locked, save_metadata, save_metadata_at, load_metadata.
  destruct (fs_lookup metadata_file (files c)) as [f|]; [destruct (locked f)|];
    try discriminate; intros _; simpl; rewrite fs_lookup_set, String.eqb_refl; reflexivity.
Qed.

Lemma save_locked (now : Z) (c : cache) :
  is_locked metadata_file (files c) = true -> save now c = c.
Proof.
  unfold is_locked, save_metadata, save_metadata_at.
  destruct (fs_lookup metadata_file (files c)) as [f|]; [destruct (locked f)|];
    try discriminate; reflexivity.
Qed.

Lemma setitem_some (o : pyobj) (kvs : list (string * pyobj)) (n : string) (v : pyobj) :
  o = PDict kvs -> exists o', py_setitem o n v = Some o'.
Proof. intros ->. unfold py_setitem. destruct existsb; eauto. Qed.

Lemma setitem_none (o : pyobj) (n : string) (v : pyobj) :
  (forall kvs, o <> PDict kvs) -> py_setitem o n v = None.
Proof. intros H. destruct o; try reflexivity. exfalso. eapply H. reflexivity. Qed.

Lemma pop_none (o : pyobj) (n : string) :
  (forall kvs, o <> PDict kvs) -> py_pop o n = None.
Proof. intros H. destruct o; try reflexivity. exfalso. eapply H. reflexivity. Qed.

Lemma get_hit_eq (now : Z) (k : string) (c : cache) (f : file) (v md' : pyobj) :
  fs_lookup (key_of k) (files c) = Some f -> data f = CPickle v ->
  py_setitem (metadata c) (key_of k) (PNum now) = Some md' ->
  get md5hex pickle_size now k c = (Some v, save now (set_metadata c md')).
Proof.
  intros Hf Hd Hs. unfold get. fold (key_of k). rewrite Hf, Hd. cbn [pickle_load].
  rewrite Hs. reflexivity.
Qed.

(** [_save_metadata] then [_load_metadata]: when the index file can be
    written, loading it gives back the in-memory index.  [open(..., 'wb')]
    truncates the index file before [pickle.dump] writes it, so a dump that
    fails part way leaves a file that does not unpickle, and a later load
    gives an empty index.  When the file cannot be opened, the error is
    swallowed and nothing changes.  No other file, and not the in-memory
    index, is touched. *)
Theorem save_load_roundtrip (now : Z) (c : cache) :
  (is_locked metadata_file (files c) = false ->
     load_metadata (files (save now c)) = metadata c) /\
  (forall sz, is_locked metadata_file (files c) = false ->
     fs_exists metadata_file (files (save_at (Some sz) now c)) = true /\
     load_metadata (files (save_at (Some sz) now c)) = PDict []) /\
  (forall df, is_locked metadata_file (files c) = true -> save_at df now c = c) /\
  (forall df m, m <> metadata_file ->
     fs_lookup m (files (save_at df now c)) = fs_lookup m (files c)) /\
  (forall df, metadata (save_at df now c) = metadata c).
Proof.
  split; [exact (save_then_load now c)|].
  split; [|split; [|split]].
  - intros sz. unfold is_locked, save_metadata_at, fs_exists, load_metadata.
    destruct (fs_lookup metadata_file (files c)) as [f|]; [destruct (locked f)|];
      try discriminate; intros _; cbn [files set_files];
      rewrite fs_lookup_set, String.eqb_refl; split; reflexivity.
  - intros df. unfold is_locked, save_metadata_at.
    destruct (fs_lookup metadata_file (files c)) as [f|]; [destruct (locked f)|];
      try discriminate; reflexivity.
  - intros df. exact (save_at_lookup_other df now c).
  - intros df. exact (proj1 (save_at_same df now c)).
Qed.

(** [get] on an entry file that unpickles, with a dict index: it returns
    the value, sets the entry's record to the current time, leaves every
    other record and every file but the index file as it was, and, when the
    index file can be written, the index on disk is the updated one. *)
Theorem get_hit_effects (now : Z) (k : string) (c : cache) (f : file) (v : pyobj)
    (kvs : list (string * pyobj)) :
  fs_lookup (key_of k) (files c) = Some f -> data f = CPickle v -> metadata c = PDict kvs ->
  fst (get md5hex pickle_size now k c) = Some v /\
  record (snd (get md5hex pickle_size now k c)) (key_of k) = Some (PNum now) /\
  (forall m, m <> key_of k -> record (snd (get md5hex pickle_size now k c)) m = record c m) /\
  (forall m, m <> metadata_file ->
     fs_lookup m (files (snd (get md5hex pickle_size now k c))) = fs_lookup m (files c)) /\
  (is_locked metadata_file (files c) = false ->
     load_metadata (files (snd (get md5hex pickle_size now k c))) =
       metadata (snd (get md5hex pickle_size now k c))).
Proof.
  intros Hf Hd Hm.
  destruct (setitem_some (metadata c) kvs (key_of k) (PNum now) Hm) as [md' Hs].
  rewrite (get_hit_eq now k c f v md' Hf Hd Hs). cbn [fst snd].
  split; [reflexivity|]. split; [|split; [|split]].
  - rewrite record_save. unfold record, set_metadata. cbn [metadata].
    rewrite (rec_of_setitem _ _ _ _ _ Hs), String.eqb_refl. reflexivity.
  - intros m Hne. rewrite record_save. unfold record, set_metadata. cbn [metadata].
    rewrite (rec_of_setitem _ _ _ _ _ Hs).
    destruct (String.eqb_spec m (key_of k)); [contradiction|reflexivity].
  - intros m Hne. rewrite (save_lookup_other now _ m Hne). reflexivity.
  - intros Hl. rewrite (save_then_load now (set_metadata c md') Hl).
    symmetry. exact (proj1 (save_metadata_same now _)).
Qed.

(** A [get] that returned a value returns it again at any later time: the
    entry file is kept and the index stays a dict. *)
Theorem get_hit_repeat (now now' : Z) (k : string) (c : cache) (v : pyobj) :
  fst (get md5hex pickle_size now k c) = Some v ->
  fst (get md5hex pickle_size now' k (snd (get md5hex pickle_size now k c))) = Some v.
Proof.
  destruct (fs_lookup (key_of k) (files c)) as [f|] eqn:Hf.
  - destruct (data f) as [w|] eqn:Hd.
    + destruct (py_setitem (metadata c) (key_of k) (PNum now)) as [md'|] eqn:Hs.
      * rewrite (get_hit_eq now k c f w md' Hf Hd Hs). cbn [fst snd].
        intros [= <-].
        destruct (setitem_dict _ _ _ _ Hs) as [kvs Hk].
        assert (Hm : metadata (save now (set_metadata c md')) = PDict kvs)
          by (rewrite (proj1 (save_metadata_same now _)); exact Hk).
        destruct (setitem_some _ kvs (key_of k) (PNum now') Hm) as [md2 Hs2].
        rewrite (get_hit_eq now' k _ f w md2); [reflexivity| |exact Hd|exact Hs2].
        rewrite (save_lookup_other now _ _ (key_not_metadata k)). exact Hf.
      * unfold get. fold (key_of k). rewrite Hf, Hd. cbn [pickle_load]. rewrite Hs.
        destruct (unlink (key_of k) (files c)); discriminate.
    + unfold get. fold (key_of k). rewrite Hf, Hd. cbn [pickle_load].
      destruct (unlink (key_of k) (files c)); discriminate.
  - unfold get. fold (key_of k). rewrite Hf. discriminate.
Qed.

Lemma get_nondict_eq (now : Z) (k : string) (c : cache) (f : file) (v : pyobj) :
  (forall kvs, metadata c <> PDict kvs) ->
  fs_lookup (key_of k) (files c) = Some f -> data f = CPickle v -> locked f = false ->
  get md5hex pickle_size now k c = (None, set_files c (fs_remove (key_of k) (files c))).
Proof.
  intros Hn Hf Hd Hl.
  unfold get. fold (key_of k). rewrite Hf, Hd. cbn [pickle_load].
  rewrite (setitem_none _ _ _ Hn), (unlink_some _ _ _ Hf Hl), (pop_none _ _ Hn).
  reflexivity.
Qed.

(** With an index that is not a dict (a loaded object of another type),
    [get] on an entry file that unpickles fails at the assignment of the
    timestamp and takes the corrupted-file branch: it returns [None] and
    deletes the (valid) entry file; the index is left as it was. *)
Theorem get_nondict_deletes (now : Z) (k : string) (c : cache) (f : file) (v : pyobj) :
  (forall kvs, metadata c <> PDict kvs) ->
  fs_lookup (key_of k) (files c) = Some f -> data f = CPickle v -> locked f = false ->
  fst (get md5hex pickle_size now k c) = None /\
  fs_lookup (key_of k) (files (snd (get md5hex pickle_size now k c))) = None /\
  metadata (snd (get md5hex pickle_size now k c)) = metadata c.
Proof.
  intros Hn Hf Hd Hl. rewrite (get_nondict_eq now k c f v Hn Hf Hd Hl).
  cbn [fst snd files metadata set_files]. split; [reflexivity|]. split; [|reflexivity].
  rewrite fs_lookup_remove, String.eqb_refl. reflexivity.
Qed.


(** A [put] whose [try] body ran to the end leaves no temporary file. *)
Theorem put_completed_no_temp (now : Z) (k : string) (v : pyobj) (flt : put_fault) (c : cache) :
  fst (put md5hex pickle_size now k v flt c) = Completed ->
  fs_lookup (tmp_of k) (files (snd (put md5hex pickle_size now k v flt c))) = None.
Proof.
  intros H. destruct (put_shape now k v flt c) as [(d' & _ & E)|(md' & _ & E)].
  { pose proof (put_raised now k v flt c d' E) as R. rewrite H in R. discriminate R. }
  rewrite E. cbn [snd].
  lazymatch goal with |- context [cleanup now ?c'] =>
    destruct (cleanup_lookup_other now c' (tmp_of k) (tmp_not_metadata k)) as [E'|E'] end;
    rewrite E'; [|reflexivity].
  rewrite (save_at_lookup_other _ _ _ _ (tmp_not_metadata k)). cbn [files].
  rewrite fs_lookup_set, fs_lookup_remove, String.eqb_refl.
  destruct (String.eqb_spec (tmp_of k) (key_of k)) as [E''|_];
    [exfalso; exact (tmp_not_key k k E'')|reflexivity].
Qed.

(** [put k] changes no file other than its temporary file, the entry file
    of [k] and the index file, except that the eviction pass of a [put]
    that ran to the end may delete files. *)
Theorem put_frame (now : Z) (k : string) (v : pyobj) (flt : put_fault) (c : cache) (m : string) :
  m <> key_of k -> m <> tmp_of k -> m <> metadata_file ->
  fs_lookup m (files (snd (put md5hex pickle_size now k v flt c))) = fs_lookup m (files c) \/
  (fst (put md5hex pickle_size now k v flt c) = Completed /\
   fs_lookup m (files (snd (put md5hex pickle_size now k v flt c))) = None).
Proof.
  intros Hk Ht Hmd.
  destruct (put_shape now k v flt c) as [(d' & Hd & E)|(md' & _ & E)]; rewrite E.
  - left. rewrite (proj1 (proj2 (proj2 (proj2 (put_recover_spec _ _ _)))) m Ht).
    exact (Hd m Ht Hk).
  - cbn [fst snd].
    lazymatch goal with |- context [cleanup now ?c'] =>
      destruct (cleanup_lookup_other now c' m Hmd) as [E'|E'] end;
      rewrite E'; [left|right; split; reflexivity].
    rewrite (save_at_lookup_other _ _ _ _ Hmd). cbn [files].
    rewrite fs_lookup_set, fs_lookup_remove, fs_lookup_set. str_cases.
Qed.

(** With an index that is not a dict, [put] without an I/O error writes
    the entry file and only then fails at the assignment of the timestamp:
    it raises (and returns [None] to the caller), but the entry file holds
    the new value, the temporary file is gone and the index is unchanged. *)
Theorem put_nondict_keeps_file (now : Z) (k : string) (v : pyobj) (c : cache) :
  (forall kvs, metadata c <> PDict kvs) ->
  is_locked (tmp_of k) (files c) = false -> is_locked (key_of k) (files c) = false ->
  fst (put md5hex pickle_size now k v NoFault c) = Raised /\
  fs_lookup (key_of k) (files (snd (put md5hex pickle_size now k v NoFault c))) =
    Some (mkFile (CPickle v) (pickle_size v) now false) /\
  fs_lookup (tmp_of k) (files (snd (put md5hex pickle_size now k v NoFault c))) = None /\
  metadata (snd (put md5hex pickle_size now k v NoFault c)) = metadata c.
Proof.
  intros Hn Ht Hk. unfold put. fold (key_of k).
  change (with_suffix (key_of k) ".tmp") with (tmp_of k). cbn [orb]. rewrite Ht. cbn [orb].
  assert (Hkt : key_of k <> tmp_of k) by (intros E; exact (tmp_not_key k k (eq_sym E))).
  rewrite (is_locked_set_other _ _ _ _ Hkt), Hk, (setitem_none _ _ _ Hn).
  set (tf := mkFile (CPickle v) (pickle_size v) now false).
  set (moved := fs_set (key_of k) tf (fs_remove (tmp_of k) (fs_set (tmp_of k) tf (files c)))).
  assert (Htm : fs_lookup (tmp_of k) moved = None).
  { unfold moved. rewrite fs_lookup_set, fs_lookup_remove, String.eqb_refl.
    destruct (String.eqb_spec (tmp_of k) (key_of k)); [congruence|reflexivity]. }
  unfold put_recover, set_files. cbn [files]. unfold fs_exists. rewrite Htm. cbn [fst snd files metadata].
  split; [reflexivity|]. split; [|split; [exact Htm|reflexivity]].
  unfold moved. rewrite fs_lookup_set, String.eqb_refl. reflexivity.
Qed.


(** *** The eviction pass and [clear] *)

Lemma scan_names (md : pyobj) (d : dir) (l : list (string * Z * pyobj)) :
  scan md d = Some l -> forall e, In e l -> glob_entry (entry_name e) = true.
Proof.
  revert l. induction d as [|[n f] d IH]; intros l H e He; simpl in H.
  - injection H as <-. destruct He.
  - destruct (glob_entry n) eqn:Hg; [|exact (IH l H e He)].
    destruct (py_get md n (PNum (st_mtime f))) as [t|]; [|discriminate].
    destruct (scan md d) as [l'|]; [|discriminate].
    injection H as <-. destruct He as [<-|He]; [exact Hg|exact (IH l' eq_refl e He)].
Qed.

Lemma py_sort_perm (l s : list (string * Z * pyobj)) :
  py_sort l = Some s -> Permutation s l.
Proof.
  destruct l as [|e1 [|e2 l]]; intros H; [injection H as <-; reflexivity|injection H as <-; reflexivity|].
  unfold py_sort in H. destruct all_compare; [|discriminate]. injection H as <-.
  pose proof (fold_insert_by_time_perm (e1 :: e2 :: l) []) as P.
  rewrite app_nil_r in P. exact P.
Qed.

Lemma evict_notin (maxb total : Z) (m : string) (l : list (string * Z * pyobj)) :
  forall removed d md, (forall e, In e l -> entry_name e <> m) ->
  fs_lookup m (fst (evict maxb total removed l d md)) = fs_lookup m d.
Proof.
  induction l as [|[[n sz] t] l IH]; intros removed d md H; [reflexivity|].
  cbn [evict]. destruct (5 * (total - removed) <=? 4 * maxb); [reflexivity|].
  assert (Hl : forall e, In e l -> entry_name e <> m) by (intros e He; apply H; right; exact He).
  assert (Hn : n <> m) by exact (H (n, sz, t) (or_introl eq_refl)).
  destruct (unlink n d) as [d'|] eqn:U; rewrite IH by exact Hl; [|reflexivity].
  rewrite (unlink_lookup m n d d' U). destruct (String.eqb_spec m n); [congruence|reflexivity].
Qed.

(** [_cleanup_old_files] only ever deletes files matching
    "embedding_*.pkl": temporary files and other files are kept as they
    were (the index file may be rewritten). *)
Theorem cleanup_keeps_non_entries (now : Z) (c : cache) (m : string) :
  glob_entry m = false -> m <> metadata_file ->
  fs_lookup m (files (cleanup now c)) = fs_lookup m (files c).
Proof.
  intros Hg Hm. unfold cleanup_old_files.
  destruct (scan (metadata c) (files c)) as [l|] eqn:Hs; [|reflexivity].
  destruct (max_size_bytes c <? total_of l); [|reflexivity].
  destruct (py_sort l) as [s|] eqn:Hp; [|reflexivity].
  destruct (evict (max_size_bytes c) (total_of l) 0 s (files c) (metadata c)) as [d' md'] eqn:Ev.
  rewrite (save_lookup_other _ _ _ Hm). cbn [files].
  replace d' with (fst (evict (max_size_bytes c) (total_of l) 0 s (files c) (metadata c)))
    by (rewrite Ev; reflexivity).
  apply evict_notin. intros e He E.
  apply (Permutation_in _ (py_sort_perm l s Hp)) in He.
  subst m. rewrite (scan_names _ _ _ Hs e He) in Hg. discriminate.
Qed.

Lemma scan_nondict (md : pyobj) (d : dir) :
  (forall kvs, md <> PDict kvs) -> scan md d = None \/ scan md d = Some [].
Proof.
  intros H. induction d as [|[n f] d IH]; [right; reflexivity|]. simpl.
  destruct (glob_entry n); [|exact IH].
  left. destruct md; try reflexivity. exfalso. eapply H. reflexivity.
Qed.

Lemma cleanup_nondict_eq (now : Z) (c : cache) :
  (forall kvs, metadata c <> PDict kvs) -> 0 <= max_size_bytes c ->
  cleanup now c = c.
Proof.
  intros Hn Hmax. unfold cleanup_old_files.
  destruct (scan_nondict (metadata c) (files c) Hn) as [->| ->]; [reflexivity|].
  cbn [total_of fold_right]. destruct (Z.ltb_spec (max_size_bytes c) 0); [lia|reflexivity].
Qed.

(** With an index that is not a dict, [_cleanup_old_files] does nothing:
    the lookup of a timestamp raises as soon as there is an entry file, and
    with none the total size is zero. *)
Theorem cleanup_nondict_noop (now : Z) (c : cache) :
  (forall kvs, metadata c <> PDict kvs) -> 0 <= max_size_bytes c ->
  cleanup now c = c.
Proof. exact (cleanup_nondict_eq now c). Qed.

(** ** C6: loading the index *)

(** C6 (code bug). The loaded index is not checked: when [metadata.pkl]
    unpickles to an object that is not a dict (an incompatible format),
    construction keeps that object as the index instead of an empty one.
    Every later [get] of a valid, deletable entry then fails at the
    assignment of the timestamp, returns [None] and deletes the entry file,
    and the eviction pass never evicts anything. *)
Theorem foreign_index_kept (d : dir) (maxb : Z) (f : file) (o : pyobj) :
  fs_lookup metadata_file d = Some f -> data f = CPickle o -> (forall kvs, o <> PDict kvs) ->
  init false d maxb = Some (mkCache d o maxb) /\
  (forall now k g v, fs_lookup (key_of k) d = Some g -> data g = CPickle v -> locked g = false ->
     get md5hex pickle_size now k (mkCache d o maxb) = (None, mkCache (fs_remove (key_of k) d) o maxb)) /\
  (forall now, 0 <= maxb -> cleanup now (mkCache d o maxb) = mkCache d o maxb).
Proof.
  intros Hf Hd Ho. split; [|split].
  - unfold init, load_metadata. rewrite Hf, Hd. reflexivity.
  - intros now k g v Hg Hgd Hgl. exact (get_nondict_eq now k (mkCache d o maxb) g v Ho Hg Hgd Hgl).
  - intros now Hmax. exact (cleanup_nondict_eq now (mkCache d o maxb) Ho Hmax).
Qed.

Lemma entry_files_set_metadata (f : file) (d : dir) :
  entry_files (fs_set metadata_file f d) = entry_files d.
Proof.
  unfold fs_set, entry_files. destruct (fs_exists metadata_file d).
  - induction d as [|[n g] d IH]; [reflexivity|]. simpl.
    destruct (String.eqb_spec n metadata_file) as [->|_]; simpl; rewrite ?IH; reflexivity.
  - rewrite filter_app.
    change (filter (fun mf => glob_entry (fst mf)) [(metadata_file, f)]) with (@nil (string * file)).
    apply app_nil_r.
Qed.

Lemma entry_files_save (now : Z) (c : cache) :
  entry_files (files (save now c)) = entry_files (files c).
Proof.
  unfold save_metadata, save_metadata_at. destruct (fs_lookup metadata_file (files c)) as [f|];
    [destruct (locked f)|]; try reflexivity; apply entry_files_set_metadata.
Qed.

Lemma entry_files_drop (ns : list string) (d : dir) :
  entry_files (drop_names ns d) = drop_names ns (entry_files d).
Proof.
  unfold entry_files, drop_names. induction d as [|x d IH]; [reflexivity|]. simpl.
  destruct (glob_entry (fst x)) eqn:E1; destruct (negb (existsb (String.eqb (fst x)) ns)) eqn:E2;
    simpl; rewrite ?E1, ?E2, ?IH; reflexivity.
Qed.

Lemma info_eq (c : cache) :
  get_cache_info c = (List.length (entry_files (files c)), summed_size (entry_files (files c))).
Proof. reflexivity. Qed.

Lemma summed_size_perm (l l' : dir) : Permutation l l' -> summed_size l = summed_size l'.
Proof.
  induction 1 as [|x l l' _ IH|x y l|l l' l'' _ IH1 _ IH2]; simpl; lia.
Qed.

Lemma fs_remove_notin (n : string) (l : dir) : ~ In n (map fst l) -> fs_remove n l = l.
Proof.
  unfold fs_remove. induction l as [|[m g] l IH]; intros H; [reflexivity|]. simpl.
  destruct (String.eqb_spec m n) as [->|_]; [exfalso; apply H; left; reflexivity|].
  simpl. rewrite IH; [reflexivity|]. intros Hi. apply H. right. exact Hi.
Qed.

Lemma summed_remove (p : string * file) (l : dir) :
  NoDup (map fst l) -> In p l -> summed_size (fs_remove (fst p) l) + st_size (snd p) = summed_size l.
Proof.
  induction l as [|q l IH]; intros Hd Hi; [destruct Hi|].
  inversion Hd as [|? ? Hq Hl]; subst.
  destruct Hi as [->|Hi].
  - unfold fs_remove. simpl. rewrite String.eqb_refl. simpl.
    fold (fs_remove (fst p) l). rewrite fs_remove_notin by exact Hq. lia.
  - assert (Hne : fst q <> fst p) by (intros E; apply Hq; rewrite E; exact (in_map fst _ _ Hi)).
    unfold fs_remove. simpl. destruct (String.eqb_spec (fst q) (fst p)); [contradiction|].
    simpl. fold (fs_remove (fst p) l). specialize (IH Hl Hi). lia.
Qed.

Lemma summed_drop (P : dir) :
  forall l, NoDup (map fst l) -> NoDup (map fst P) -> (forall x, In x P -> In x l) ->
  summed_size (drop_names (map fst P) l) + summed_size P = summed_size l.
Proof.
  induction P as [|p P IH]; intros l Hl HP Hin.
  - rewrite drop_names_nil. simpl. lia.
  - inversion HP as [|? ? Hp HP']; subst.
    assert (Hsub : forall x, In x P -> In x (fs_remove (fst p) l)).
    { intros x Hx. unfold fs_remove. apply filter_In. split; [exact (Hin x (or_intror Hx))|].
      destruct (String.eqb_spec (fst x) (fst p)) as [E|_]; [|reflexivity].
      exfalso. apply Hp. rewrite <- E. exact (in_map fst _ _ Hx). }
    specialize (IH (fs_remove (fst p) l) (nodup_filter_names _ _ Hl) HP' Hsub).
    pose proof (summed_remove p l Hl (Hin p (or_introl eq_refl))) as R.
    cbn [map]. rewrite <- drop_names_remove. fold (fs_remove (fst p) l).
    destruct p as [n f]. rewrite summed_size_cons. cbn [fst snd] in R, IH |- *. lia.
Qed.

Lemma in_firstn {A : Type} (k : nat) (s : list A) (x : A) : In x (firstn k s) -> In x s.
Proof.
  revert k. induction s as [|y s IH]; intros [|k] H; simpl in H;
    [destruct H|destruct H|destruct H|].
  destruct H as [<-|H]; [left; reflexivity|right; exact (IH k H)].
Qed.

Lemma nodup_firstn (k : nat) (s : dir) : NoDup (map fst s) -> NoDup (map fst (firstn k s)).
Proof.
  revert k. induction s as [|x s IH]; intros [|k] H; simpl; [constructor|constructor|constructor|].
  inversion H as [|? ? Hx Hs]; subst. constructor; [|exact (IH k Hs)].
  intros Hi. apply Hx. apply in_map_iff in Hi. destruct Hi as [y [Hy Hi]].
  rewrite <- Hy. apply in_map. exact (in_firstn k s y Hi).
Qed.


Lemma deleted_all (l : dir) : (forall x, In x l -> locked (snd x) = false) -> deleted l = l.
Proof.
  unfold deleted. induction l as [|x l IH]; intros H; [reflexivity|]. simpl.
  rewrite (H x (or_introl eq_refl)). simpl. f_equal. apply IH. intros y Hy. apply H. right. exact Hy.
Qed.

(** With a dict index of timestamps, distinct names and entry files that
    can all be deleted, the entry files total at most [max_size_bytes] after
    [_cleanup_old_files] (for a non-negative limit); when they exceeded it
    before, they total at most 80% of it after. This is the size
    [get_cache_info] reports. *)
Theorem cleanup_size_bound (now : Z) (c : cache) (kvs : list (string * pyobj)) :
  metadata c = PDict kvs ->
  (forall n v, dict_lookup n kvs = Some v -> is_num v = true) ->
  NoDup (map fst (files c)) ->
  (forall n f, In (n, f) (entry_files (files c)) -> locked f = false) ->
  0 <= max_size_bytes c ->
  snd (get_cache_info (cleanup now c)) <= max_size_bytes c /\
  (max_size_bytes c < snd (get_cache_info c) ->
   5 * snd (get_cache_info (cleanup now c)) <= 4 * max_size_bytes c).
Proof.
  intros Hm Hn Hd Hl Hmax. rewrite !info_eq. cbn [snd].
  destruct (cleanup_evicts now c kvs Hm Hn Hd) as [Hle Hgt].
  set (E := entry_files (files c)) in *.
  destruct (Z.le_gt_cases (summed_size E) (max_size_bytes c)) as [H|H].
  - rewrite (Hle H). fold E. split; [exact H|lia].
  - destruct (Hgt H) as (s & k & Hp & _ & _ & Hstop & ->).
    rewrite entry_files_save. cbn [files max_size_bytes]. rewrite entry_files_drop. fold E.
    assert (HE : NoDup (map fst E)) by exact (nodup_filter_names _ _ Hd).
    assert (Hs : NoDup (map fst s))
      by exact (Permutation_NoDup (Permutation_map fst (Permutation_sym Hp)) HE).
    assert (Hsub : forall x, In x (firstn k s) -> In x E)
      by (intros x Hx; exact (Permutation_in _ Hp (in_firstn k s x Hx))).
    assert (Hdel : deleted (firstn k s) = firstn k s).
    { apply deleted_all. intros [n f] Hx. exact (Hl n f (Hsub _ Hx)). }
    rewrite Hdel in Hstop |- *.
    assert (Hsum := summed_drop (firstn k s) E HE (nodup_firstn k s Hs) Hsub).
    assert (Hafter : 5 * summed_size (drop_names (map fst (firstn k s)) E) <= 4 * max_size_bytes c).
    { destruct Hstop as [Hk|Hk]; [|lia].
      rewrite Hk, firstn_all in Hsum |- *. rewrite (summed_size_perm _ _ Hp) in Hsum. lia. }
    split; [lia|intros _; exact Hafter].
Qed.

Lemma unlink_all_ok (ns : list string) :
  forall d, NoDup ns ->
  (forall n, In n ns -> exists f, fs_lookup n d = Some f /\ locked f = false) ->
  unlink_all ns d = (true, drop_names ns d).
Proof.
  induction ns as [|n ns IH]; intros d Hnd H; [rewrite drop_names_nil; reflexivity|].
  inversion Hnd as [|? ? Hn Hns]; subst.
  destruct (H n (or_introl eq_refl)) as (f & Hf & Hl).
  cbn [unlink_all]. rewrite (unlink_some n d f Hf Hl).
  rewrite IH; [rewrite <- drop_names_remove; reflexivity|exact Hns|].
  intros n' Hn'. rewrite fs_lookup_remove.
  destruct (String.eqb_spec n' n) as [->|_]; [contradiction|].
  exact (H n' (or_intror Hn')).
Qed.

Lemma entry_files_drop_all (d : dir) : entry_files (drop_names (glob_names d) d) = [].
Proof.
  destruct (entry_files (drop_names (glob_names d) d)) as [|x l] eqn:E; [reflexivity|].
  exfalso. assert (Hx : In x (x :: l)) by (left; reflexivity). rewrite <- E in Hx.
  unfold entry_files, drop_names in Hx. rewrite !filter_In in Hx.
  destruct Hx as [[Hx Hne] Hg].
  assert (Hin : existsb (String.eqb (fst x)) (glob_names d) = true).
  { apply existsb_exists. exists (fst x). split; [|apply String.eqb_refl].
    unfold glob_names. apply in_map. apply filter_In. split; assumption. }
  rewrite Hin in Hne. discriminate.
Qed.

Lemma lookup_no_entries (m : string) (d : dir) :
  glob_entry m = true -> entry_files d = [] -> fs_lookup m d = None.
Proof.
  unfold entry_files. induction d as [|[n f] d IH]; intros Hg He; [reflexivity|].
  simpl in He |- *. destruct (String.eqb_spec n m) as [->|_].
  - rewrite Hg in He. discriminate.
  - destruct (glob_entry n); [discriminate|exact (IH Hg He)].
Qed.

(** [clear] with a dict index, distinct names and entry files that can all
    be deleted: afterwards [get_cache_info] reports no file and no byte,
    the index is empty, [find] is false for every key and, when the index
    file can be written, the index on disk is empty as well. *)
Theorem clear_resets (now : Z) (c : cache) (kvs : list (string * pyobj)) :
  metadata c = PDict kvs -> NoDup (map fst (files c)) ->
  (forall n f, In (n, f) (entry_files (files c)) -> locked f = false) ->
  get_cache_info (clear pickle_size now c) = (0%nat, 0) /\
  metadata (clear pickle_size now c) = PDict [] /\
  (forall k, fst (find md5hex k (clear pickle_size now c)) = false) /\
  (is_locked metadata_file (files c) = false ->
     load_metadata (files (clear pickle_size now c)) = PDict []).
Proof.
  intros Hm Hd Hl.
  assert (Hu : unlink_all (glob_names (files c)) (files c) =
               (true, drop_names (glob_names (files c)) (files c))).
  { apply unlink_all_ok; [exact (nodup_filter_names _ _ Hd)|].
    intros n Hn. unfold glob_names in Hn. apply in_map_iff in Hn.
    destruct Hn as [[n' f] [Hn' Hi]]. cbn [fst] in Hn'. subst n'.
    exists f. split; [|exact (Hl n f Hi)].
    apply nodup_lookup; [exact Hd|]. apply filter_In in Hi. exact (proj1 Hi). }
  unfold clear. rewrite Hu, Hm. cbn [py_clear].
  set (d' := drop_names (glob_names (files c)) (files c)).
  assert (He : entry_files d' = []) by apply entry_files_drop_all.
  split; [|split; [|split]].
  - rewrite info_eq, entry_files_save. cbn [files]. rewrite He. reflexivity.
  - exact (proj1 (save_metadata_same now _)).
  - intros k. unfold find, fs_exists. cbn [fst].
    rewrite (save_lookup_other _ _ _ (key_not_metadata k)). cbn [files].
    rewrite (lookup_no_entries _ _ (glob_key k) He). reflexivity.
  - intros Hk. rewrite save_then_load; [reflexivity|].
    cbn [files]. unfold is_locked in *.
    assert (Hmd : fs_lookup metadata_file d' = fs_lookup metadata_file (files c)).
    { pose proof (unlink_all_other (glob_names (files c)) (files c) metadata_file) as U.
      rewrite Hu in U. apply U. intros Hi. apply glob_names_in in Hi.
      rewrite glob_metadata in Hi. discriminate. }
    rewrite Hmd. exact Hk.
Qed.

End Proofs.

(** * The properties on the sample caches *)

Section Checks.
Local Open Scope string_scope.

Lemma put_get_roundtrip_witness :
  put sample_hash sample_size 5 "a" (PNum 7) NoFault (corrupt_cache false) =
    (Completed, snd (put sample_hash sample_size 5 "a" (PNum 7) NoFault (corrupt_cache false))) /\
  fs_exists (get_cache_key sample_hash "a")
    (files (snd (put sample_hash sample_size 5 "a" (PNum 7) NoFault (corrupt_cache false)))) = true /\
  fst (get sample_hash sample_size 6 "a"
         (snd (put sample_hash sample_size 5 "a" (PNum 7) NoFault (corrupt_cache false)))) = Some (PNum 7).
Proof.
  assert (H1 : put sample_hash sample_size 5 "a" (PNum 7) NoFault (corrupt_cache false) =
    (Completed, snd (put sample_hash sample_size 5 "a" (PNum 7) NoFault (corrupt_cache false))))
    by (vm_compute; reflexivity).
  assert (H2 : fs_exists (get_cache_key sample_hash "a")
    (files (snd (put sample_hash sample_size 5 "a" (PNum 7) NoFault (corrupt_cache false)))) = true)
    by (vm_compute; reflexivity).
  split; [exact H1|]. split; [exact H2|].
  exact (put_get_roundtrip sample_hash sample_size 5 6 "a" (PNum 7) (corrupt_cache false) _ H1 H2).
Defined.

(* C2 *)
Lemma eviction_pass_witness :
  metadata full_cache = PDict [("embedding_a.pkl", PNum 1); ("embedding_b.pkl", PNum 2);
         ("embedding_c.pkl", PNum 3); ("embedding_d.pkl", PNum 4)] /\
  max_size_bytes full_cache < summed_size (entry_files (files full_cache)) /\
  exists s k,
    Permutation s (entry_files (files full_cache)) /\
    cleanup_old_files sample_size 9 full_cache =
      save_metadata sample_size 9
        (mkCache (drop_names (map fst (deleted (firstn k s))) (files full_cache))
                 (PDict (drop_names (map fst (deleted (firstn k s)))
                    [("embedding_a.pkl", PNum 1); ("embedding_b.pkl", PNum 2);
                     ("embedding_c.pkl", PNum 3); ("embedding_d.pkl", PNum 4)]))
                 (max_size_bytes full_cache)).
Proof.
  assert (Hm : metadata full_cache = PDict [("embedding_a.pkl", PNum 1); ("embedding_b.pkl", PNum 2);
         ("embedding_c.pkl", PNum 3); ("embedding_d.pkl", PNum 4)]) by reflexivity.
  assert (Hn : forall n v, dict_lookup n [("embedding_a.pkl", PNum 1); ("embedding_b.pkl", PNum 2);
         ("embedding_c.pkl", PNum 3); ("embedding_d.pkl", PNum 4)] = Some v -> is_num v = true)
    by (concrete_record; reflexivity).
  assert (Hd : NoDup (map fst (files full_cache)))
    by (vm_compute; repeat constructor; simpl; intuition discriminate).
  assert (Hgt : max_size_bytes full_cache < summed_size (entry_files (files full_cache)))
    by (vm_compute; reflexivity).
  destruct (eviction_pass sample_size 9 full_cache _ Hm Hn Hd) as [_ H].
  destruct (H Hgt) as (s & k & Hp & _ & _ & _ & He).
  split; [exact Hm|]. split; [exact Hgt|]. exists s, k. split; [exact Hp|exact He].
Defined.

Lemma get_corrupt_index_not_saved_witness :
  fs_lookup (get_cache_key sample_hash "a") (files (corrupt_cache false)) = Some (junk_file false) /\
  data (junk_file false) = CJunk /\ locked (junk_file false) = false /\
  fst (get sample_hash sample_size 5 "a" (corrupt_cache false)) = None /\
  fs_lookup "metadata.pkl" (files (snd (get sample_hash sample_size 5 "a" (corrupt_cache false)))) =
    Some (index_file corrupt_index).
Proof.
  assert (H1 : fs_lookup (get_cache_key sample_hash "a") (files (corrupt_cache false)) =
                 Some (junk_file false)) by reflexivity.
  assert (H2 : data (junk_file false) = CJunk) by reflexivity.
  assert (H3 : locked (junk_file false) = false) by reflexivity.
  destruct (get_corrupt_index_not_saved sample_hash sample_size 5 "a" (corrupt_cache false) _ H1 H2 H3)
    as (Hv & _ & _ & Hm).
  split; [exact H1|]. split; [exact H2|]. split; [exact H3|]. split; [exact Hv|].
  exact Hm.
Defined.

Lemma get_corrupt_stale_index :
  record (snd (get sample_hash sample_size 5 "a" (corrupt_cache false))) "embedding_a.pkl" = None /\
  option_map (fun c => record c "embedding_a.pkl")
    (init false (files (snd (get sample_hash sample_size 5 "a" (corrupt_cache false)))) 1000) =
    Some (Some (PNum 1)).
Proof. split; vm_compute; reflexivity. Qed.

Lemma put_move_fallback_witness :
  is_locked (temp_key sample_hash "a") (files (clear_cache false)) = false /\
  is_locked (get_cache_key sample_hash "a") (files (clear_cache false)) = false /\
  fs_lookup (get_cache_key sample_hash "a")
    (files (snd (put sample_hash sample_size 5 "a" (PNum 7) (FailMove (CopyWrite 100) false)
                   (clear_cache false)))) = Some (mkFile CJunk 100 5 false).
Proof.
  assert (H1 : is_locked (temp_key sample_hash "a") (files (clear_cache false)) = false)
    by (vm_compute; reflexivity).
  assert (H2 : is_locked (get_cache_key sample_hash "a") (files (clear_cache false)) = false)
    by (vm_compute; reflexivity).
  destruct (put_move_fallback sample_hash sample_size 5 "a" (PNum 7) false (clear_cache false) H1 H2)
    as (Hw & _).
  split; [exact H1|]. split; [exact H2|]. exact (proj1 (proj2 (Hw 100))).
Defined.

Lemma put_copy_truncates_entry :
  fst (get sample_hash sample_size 5 "a" (clear_cache false)) = Some (PNum 10) /\
  fst (put sample_hash sample_size 5 "a" (PNum 7) (FailMove (CopyWrite 100) false) (clear_cache false))
    = Raised /\
  fst (get sample_hash sample_size 6 "a"
         (snd (put sample_hash sample_size 5 "a" (PNum 7) (FailMove (CopyWrite 100) false)
                 (clear_cache false)))) = None /\
  fst (find sample_hash "a"
         (snd (get sample_hash sample_size 6 "a"
                 (snd (put sample_hash sample_size 5 "a" (PNum 7) (FailMove (CopyWrite 100) false)
                         (clear_cache false)))))) = false.
Proof. vm_compute. split; [reflexivity|split; [reflexivity|split; reflexivity]]. Qed.

Lemma clear_stops_at_locked_witness :
  glob_names (files (clear_cache true)) = ["embedding_a.pkl"; "embedding_b.pkl"] /\
  fs_lookup "embedding_a.pkl" (files (clear_cache true)) = Some (mkFile (CPickle (PNum 10)) 300 1 true) /\
  locked (mkFile (CPickle (PNum 10)) 300 1 true) = true /\
  clear sample_size 5 (clear_cache true) = clear_cache true.
Proof.
  assert (H1 : glob_names (files (clear_cache true)) = ["embedding_a.pkl"; "embedding_b.pkl"])
    by (vm_compute; reflexivity).
  assert (H2 : fs_lookup "embedding_a.pkl" (files (clear_cache true)) =
                 Some (mkFile (CPickle (PNum 10)) 300 1 true)) by reflexivity.
  assert (H3 : locked (mkFile (CPickle (PNum 10)) 300 1 true) = true) by reflexivity.
  split; [exact H1|]. split; [exact H2|]. split; [exact H3|].
  exact (clear_stops_at_locked sample_size 5 (clear_cache true) _ _ _ H1 H2 H3).
Defined.

Lemma clear_locked_leaves_entries :
  fst (get_cache_info (clear sample_size 5 (clear_cache true))) = 2%nat /\
  fst (find sample_hash "b" (clear sample_size 5 (clear_cache true))) = true /\
  record (clear sample_size 5 (clear_cache true)) "embedding_b.pkl" = Some (PNum 2).
Proof. vm_compute. split; [reflexivity|split; reflexivity]. Qed.

Lemma init_foreign_index :
  init false (files foreign_cache) 1000 = Some foreign_cache /\
  metadata foreign_cache <> PDict [] /\
  fst (get sample_hash sample_size 5 "a" foreign_cache) = None /\
  fs_exists "embedding_a.pkl" (files (snd (get sample_hash sample_size 5 "a" foreign_cache))) = false.
Proof.
  split; [vm_compute; reflexivity|]. split; [discriminate|].
  split; vm_compute; reflexivity.
Qed.

Lemma foreign_index_kept_witness :
  fs_lookup "metadata.pkl" (files foreign_cache) = Some (index_file (PList [PNum 1])) /\
  data (index_file (PList [PNum 1])) = CPickle (PList [PNum 1]) /\
  (forall kvs, PList [PNum 1] <> PDict kvs) /\
  get sample_hash sample_size 5 "a" (mkCache (files foreign_cache) (PList [PNum 1]) 1000) =
    (None, mkCache (fs_remove (get_cache_key sample_hash "a") (files foreign_cache))
             (PList [PNum 1]) 1000).
Proof.
  assert (H1 : fs_lookup "metadata.pkl" (files foreign_cache) = Some (index_file (PList [PNum 1])))
    by reflexivity.
  assert (H2 : data (index_file (PList [PNum 1])) = CPickle (PList [PNum 1])) by reflexivity.
  assert (H3 : forall kvs, PList [PNum 1] <> PDict kvs) by (intros kvs E; discriminate E).
  destruct (foreign_index_kept sample_hash sample_size (files foreign_cache) 1000 _ _ H1 H2 H3)
    as (_ & Hg & _).
  split; [exact H1|]. split; [exact H2|]. split; [exact H3|].
  exact (Hg 5 "a" (entry_file (PNum 10) 1) (PNum 10) eq_refl eq_refl eq_refl).
Defined.

Lemma timestamps_monotone_witness :
  2 <= 3 /\ stamps_le (clear_cache false) 2 /\
  record (exec sample_hash sample_size 3 (OGet "a") (clear_cache false)) "embedding_a.pkl" =
    Some (PNum 3).
Proof.
  assert (H1 : 2 <= 3) by lia.
  assert (H2 : stamps_le (clear_cache false) 2).
  { unfold stamps_le, record, clear_cache, clear_index. cbn [rec_of metadata].
    concrete_record; (eexists; split; [reflexivity|lia]). }
  assert (H3 : fst (get sample_hash sample_size 3 "a" (clear_cache false)) = Some (PNum 10))
    by (vm_compute; reflexivity).
  destruct (timestamps_monotone sample_hash sample_size 2 3 (OGet "a") (clear_cache false) H1 H2)
    as (_ & _ & Hg & _).
  split; [exact H1|]. split; [exact H2|].
  exact (Hg "a" (PNum 10) eq_refl H3).
Defined.

Lemma corrupt_find_then_get_witness :
  fs_lookup (get_cache_key sample_hash "a") (files (corrupt_cache false)) = Some (junk_file false) /\
  data (junk_file false) = CJunk /\
  fst (find sample_hash "a" (corrupt_cache false)) = true /\
  fst (get sample_hash sample_size 5 "a" (corrupt_cache false)) = None /\
  fst (find sample_hash "a" (snd (get sample_hash sample_size 5 "a" (corrupt_cache false)))) = false.
Proof.
  assert (H1 : fs_lookup (get_cache_key sample_hash "a") (files (corrupt_cache false)) =
                 Some (junk_file false)) by reflexivity.
  assert (H2 : data (junk_file false) = CJunk) by reflexivity.
  destruct (corrupt_find_then_get sample_hash sample_size 5 "a" (corrupt_cache false) _ H1 H2)
    as (Hf & Hg & Ha).
  split; [exact H1|]. split; [exact H2|]. split; [exact Hf|]. split; [exact Hg|].
  exact Ha.
Defined.

Lemma corrupt_locked_still_found :
  fst (find sample_hash "a" (corrupt_cache true)) = true /\
  fst (get sample_hash sample_size 5 "a" (corrupt_cache true)) = None /\
  fst (find sample_hash "a" (snd (get sample_hash sample_size 5 "a" (corrupt_cache true)))) = true.
Proof. vm_compute. split; [reflexivity|split; reflexivity]. Qed.

Lemma clear_only_entries_witness :
  glob_entry "embedding_b.tmp" = false /\
  fs_lookup "embedding_b.tmp" (files (clear sample_size 5 (clear_cache false))) =
    fs_lookup "embedding_b.tmp" (files (clear_cache false)).
Proof.
  assert (H : glob_entry "embedding_b.tmp" = false) by (vm_compute; reflexivity).
  split; [exact H|].
  apply (proj1 (clear_only_entries sample_size 5 (clear_cache false) _ H)).
  vm_compute. intros Heq. discriminate Heq.
Defined.

Lemma get_hit_effects_witness :
  fs_lookup (get_cache_key sample_hash "a") (files (clear_cache false)) =
    Some (mkFile (CPickle (PNum 10)) 300 1 false) /\
  metadata (clear_cache false) = PDict [("embedding_a.pkl", PNum 1); ("embedding_b.pkl", PNum 2)] /\
  fst (get sample_hash sample_size 5 "a" (clear_cache false)) = Some (PNum 10) /\
  load_metadata (files (snd (get sample_hash sample_size 5 "a" (clear_cache false)))) =
    metadata (snd (get sample_hash sample_size 5 "a" (clear_cache false))).
Proof.
  assert (H1 : fs_lookup (get_cache_key sample_hash "a") (files (clear_cache false)) =
                 Some (mkFile (CPickle (PNum 10)) 300 1 false)) by (vm_compute; reflexivity).
  assert (H2 : data (mkFile (CPickle (PNum 10)) 300 1 false) = CPickle (PNum 10)) by reflexivity.
  assert (H3 : metadata (clear_cache false) =
                 PDict [("embedding_a.pkl", PNum 1); ("embedding_b.pkl", PNum 2)]) by reflexivity.
  assert (H4 : is_locked metadata_file (files (clear_cache false)) = false) by (vm_compute; reflexivity).
  destruct (get_hit_effects sample_hash sample_size 5 "a" (clear_cache false) _ _ _ H1 H2 H3)
    as (Hv & _ & _ & _ & Hl).
  split; [exact H1|]. split; [exact H3|]. split; [exact Hv|exact (Hl H4)].
Defined.

Lemma get_hit_repeat_witness :
  fst (get sample_hash sample_size 5 "b" (clear_cache false)) = Some (PNum 20) /\
  fst (get sample_hash sample_size 6 "b" (snd (get sample_hash sample_size 5 "b" (clear_cache false)))) =
    Some (PNum 20).
Proof.
  assert (H : fst (get sample_hash sample_size 5 "b" (clear_cache false)) = Some (PNum 20))
    by (vm_compute; reflexivity).
  split; [exact H|exact (get_hit_repeat sample_hash sample_size 5 6 "b" (clear_cache false) _ H)].
Defined.

Lemma get_nondict_deletes_witness :
  (forall kvs, metadata foreign_cache <> PDict kvs) /\
  fs_lookup (get_cache_key sample_hash "a") (files foreign_cache) = Some (entry_file (PNum 10) 1) /\
  fst (get sample_hash sample_size 5 "a" foreign_cache) = None /\
  fs_lookup (get_cache_key sample_hash "a") (files (snd (get sample_hash sample_size 5 "a" foreign_cache))) = None.
Proof.
  assert (H0 : forall kvs, metadata foreign_cache <> PDict kvs) by (intros kvs E; discriminate E).
  assert (H1 : fs_lookup (get_cache_key sample_hash "a") (files foreign_cache) =
                 Some (entry_file (PNum 10) 1)) by (vm_compute; reflexivity).
  assert (H2 : data (entry_file (PNum 10) 1) = CPickle (PNum 10)) by reflexivity.
  assert (H3 : locked (entry_file (PNum 10) 1) = false) by reflexivity.
  destruct (get_nondict_deletes sample_hash sample_size 5 "a" foreign_cache _ _ H0 H1 H2 H3)
    as (Hv & Hf & _).
  split; [exact H0|]. split; [exact H1|]. split; [exact Hv|exact Hf].
Defined.

Lemma put_completed_no_temp_witness :
  fst (put sample_hash sample_size 5 "e" (PNum 50) NoFault full_cache) = Completed /\
  fs_lookup (temp_key sample_hash "e")
    (files (snd (put sample_hash sample_size 5 "e" (PNum 50) NoFault full_cache))) = None.
Proof.
  assert (H : fst (put sample_hash sample_size 5 "e" (PNum 50) NoFault full_cache) = Completed)
    by (vm_compute; reflexivity).
  split; [exact H|exact (put_completed_no_temp sample_hash sample_size 5 "e" (PNum 50) NoFault full_cache H)].
Defined.

Lemma put_frame_witness :
  "embedding_b.pkl" <> get_cache_key sample_hash "a" /\
  "embedding_b.pkl" <> temp_key sample_hash "a" /\
  "embedding_b.pkl" <> metadata_file /\
  (fs_lookup "embedding_b.pkl" (files (snd (put sample_hash sample_size 5 "a" (PNum 7) NoFault (clear_cache false)))) =
     fs_lookup "embedding_b.pkl" (files (clear_cache false)) \/
   (fst (put sample_hash sample_size 5 "a" (PNum 7) NoFault (clear_cache false)) = Completed /\
    fs_lookup "embedding_b.pkl" (files (snd (put sample_hash sample_size 5 "a" (PNum 7) NoFault (clear_cache false)))) = None)).
Proof.
  assert (H1 : "embedding_b.pkl" <> get_cache_key sample_hash "a") by (vm_compute; discriminate).
  assert (H2 : "embedding_b.pkl" <> temp_key sample_hash "a") by (vm_compute; discriminate).
  assert (H3 : "embedding_b.pkl" <> metadata_file) by (vm_compute; discriminate).
  split; [exact H1|]. split; [exact H2|]. split; [exact H3|].
  exact (put_frame sample_hash sample_size 5 "a" (PNum 7) NoFault (clear_cache false) _ H1 H2 H3).
Defined.

Lemma put_nondict_keeps_file_witness :
  (forall kvs, metadata foreign_cache <> PDict kvs) /\
  is_locked (temp_key sample_hash "b") (files foreign_cache) = false /\
  is_locked (get_cache_key sample_hash "b") (files foreign_cache) = false /\
  fst (put sample_hash sample_size 5 "b" (PNum 20) NoFault foreign_cache) = Raised /\
  fs_lookup (get_cache_key sample_hash "b")
    (files (snd (put sample_hash sample_size 5 "b" (PNum 20) NoFault foreign_cache))) =
    Some (mkFile (CPickle (PNum 20)) 300 5 false).
Proof.
  assert (H0 : forall kvs, metadata foreign_cache <> PDict kvs) by (intros kvs E; discriminate E).
  assert (H1 : is_locked (temp_key sample_hash "b") (files foreign_cache) = false)
    by (vm_compute; reflexivity).
  assert (H2 : is_locked (get_cache_key sample_hash "b") (files foreign_cache) = false)
    by (vm_compute; reflexivity).
  destruct (put_nondict_keeps_file sample_hash sample_size 5 "b" (PNum 20) foreign_cache H0 H1 H2)
    as (Hr & Hf & _).
  split; [exact H0|]. split; [exact H1|]. split; [exact H2|]. split; [exact Hr|exact Hf].
Defined.

Lemma cleanup_keeps_non_entries_witness :
  glob_entry "embedding_e.tmp" = false /\ "embedding_e.tmp" <> metadata_file /\
  fs_lookup "embedding_e.tmp" (files (cleanup_old_files sample_size 9 over_cache)) =
    Some (junk_file false).
Proof.
  assert (H1 : glob_entry "embedding_e.tmp" = false) by (vm_compute; reflexivity).
  assert (H2 : "embedding_e.tmp" <> metadata_file) by (vm_compute; discriminate).
  split; [exact H1|]. split; [exact H2|].
  rewrite (cleanup_keeps_non_entries sample_size 9 over_cache _ H1 H2). reflexivity.
Defined.

Lemma cleanup_nondict_noop_witness :
  (forall kvs, metadata foreign_cache <> PDict kvs) /\ 0 <= max_size_bytes foreign_cache /\
  cleanup_old_files sample_size 9 foreign_cache = foreign_cache.
Proof.
  assert (H0 : forall kvs, metadata foreign_cache <> PDict kvs) by (intros kvs E; discriminate E).
  assert (H1 : 0 <= max_size_bytes foreign_cache) by (vm_compute; discriminate).
  split; [exact H0|]. split; [exact H1|].
  exact (cleanup_nondict_noop sample_size 9 foreign_cache H0 H1).
Defined.

Lemma cleanup_size_bound_witness :
  max_size_bytes over_cache < snd (get_cache_info over_cache) /\
  5 * snd (get_cache_info (cleanup_old_files sample_size 9 over_cache)) <= 4 * max_size_bytes over_cache.
Proof.
  assert (Hm : metadata over_cache =
    PDict [("embedding_a.pkl", PNum 1); ("embedding_b.pkl", PNum 2); ("embedding_c.pkl", PNum 3)])
    by reflexivity.
  assert (Hn : forall n v, dict_lookup n
    [("embedding_a.pkl", PNum 1); ("embedding_b.pkl", PNum 2); ("embedding_c.pkl", PNum 3)] = Some v ->
    is_num v = true) by (concrete_record; reflexivity).
  assert (Hd : NoDup (map fst (files over_cache))) by names_distinct.
  assert (Hl : forall n f, In (n, f) (entry_files (files over_cache)) -> locked f = false)
    by entries_unlocked.
  assert (Hmax : 0 <= max_size_bytes over_cache) by (vm_compute; discriminate).
  assert (Hgt : max_size_bytes over_cache < snd (get_cache_info over_cache)) by (vm_compute; reflexivity).
  split; [exact Hgt|].
  exact (proj2 (cleanup_size_bound sample_size 9 over_cache _ Hm Hn Hd Hl Hmax) Hgt).
Defined.

Lemma clear_resets_witness :
  get_cache_info (clear sample_size 5 (clear_cache false)) = (0%nat, 0) /\
  load_metadata (files (clear sample_size 5 (clear_cache false))) = PDict [].
Proof.
  assert (Hm : metadata (clear_cache false) =
                 PDict [("embedding_a.pkl", PNum 1); ("embedding_b.pkl", PNum 2)]) by reflexivity.
  assert (Hd : NoDup (map fst (files (clear_cache false)))) by names_distinct.
  assert (Hl : forall n f, In (n, f) (entry_files (files (clear_cache false))) -> locked f = false)
    by entries_unlocked.
  assert (Hk : is_locked metadata_file (files (clear_cache false)) = false) by (vm_compute; reflexivity).
  destruct (clear_resets sample_hash sample_size 5 (clear_cache false) _ Hm Hd Hl) as (Hi & _ & _ & Hload).
  split; [exact Hi|exact (Hload Hk)].
Defined.

End Checks.

End PersistentCache.
